(** * dashds: municipality lookup and multi-level comparison

    A shallow embedding of [main] in [dashds.py]: the sidebar that selects a
    municipality (by IBGE code, or by state and name), the fleet comparison
    across the four geographic levels, and the two blocks that compare a
    rate of the municipality with the mean of its population bracket, of its
    state and of the country.

    Conventions of the embedding:
    - a [DataFrame] is the list of its rows, in order; boolean indexing
      [df[mask]] is [filter] and builds a new frame;
    - an integer column holds [option Z], [None] being the missing value
      (SQL NULL, pandas NaN); the sums are written without wrap-around or
      rounding, which is what int64 and float64 sums give while the
      absolute values add up to less than 2^53, and the theorems that rest
      on a sum being exact carry that bound ([Linha266.carga]) as a
      hypothesis;
    - a float is an exact rational kept in lowest terms, or one of the
      three special values of IEEE arithmetic; rounding to binary64 is not
      modelled;
    - the presentation calls (plotly, streamlit layout) are left out. *)

From Stdlib Require Import List String Ascii Bool ZArith QArith Qreduction Lia.
From Stdlib Require Import DecimalString DecimalN DecimalZ Sorted Permutation.
Import ListNotations.

Local Open Scope string_scope.
Local Open Scope Z_scope.

(* ------------------------------------------------------------------ *)
(** ** The parts of Python and pandas the program relies on *)

Module Py.

(** [str.isspace] on the ASCII range: TAB..CR, FS..US and the space.
    A string is the sequence of its bytes; the white space beyond ASCII
    is not recognised. *)
Definition isspace (c : ascii) : bool :=
  let n := N_of_ascii c in
  ((9 <=? n) && (n <=? 13) || (28 <=? n) && (n <=? 31) || (n =? 32))%N.

Fixpoint lstrip (s : string) : string :=
  match s with
  | EmptyString => EmptyString
  | String c s' => if isspace c then lstrip s' else s
  end.

Fixpoint rstrip (s : string) : string :=
  match s with
  | EmptyString => EmptyString
  | String c s' =>
      match rstrip s' with
      | EmptyString => if isspace c then EmptyString else String c EmptyString
      | r => String c r
      end
  end.

(** [s.strip()] *)
Definition strip (s : string) : string := rstrip (lstrip s).

(** Truth value of a [str]: only the empty string is false. *)
Definition truthy (s : string) : bool := negb (String.eqb s "").

Fixpoint insert_sorted (x : string) (l : list string) : list string :=
  match l with
  | [] => [x]
  | y :: l' => if String.leb x y then x :: l else y :: insert_sorted x l'
  end.

(** [sorted(l)] on strings: ascending by code point. *)
Fixpoint sorted (l : list string) : list string :=
  match l with
  | [] => []
  | x :: l' => insert_sorted x (sorted l')
  end.

(** The exceptions the modelled code can meet. *)
Inductive exn : Type := IndexError.

(** The outcome of an expression that may raise. *)
Inductive result (A : Type) : Type :=
| Ok (a : A)
| Raise (e : exn).
Arguments Ok {A} a.
Arguments Raise {A} e.

End Py.

Module Pandas.
Import Py.

(** A float: a rational in lowest terms, or an IEEE special value. *)
Inductive float : Type :=
| Fin (q : Q)
| PInf
| NInf
| NaN.

(** A cell of an [object] column: a number, a text, or missing. *)
Inductive cell : Type :=
| CNum (q : Q)
| CStr (s : string)
| CNull.

(** [==] between a label cell and a scalar: a missing value on either
    side compares false, also against another missing value. *)
Definition label_eq (a b : option string) : bool :=
  match a, b with
  | Some x, Some y => String.eqb x y
  | _, _ => false
  end.

(** [Series.unique()]: distinct values in order of first appearance. *)
Fixpoint unique_acc (seen l : list string) : list string :=
  match l with
  | [] => []
  | x :: l' =>
      if existsb (String.eqb x) seen then unique_acc seen l'
      else x :: unique_acc (x :: seen) l'
  end.

Definition unique (l : list string) : list string := unique_acc [] l.

(** [.empty] *)
Definition empty {A : Type} (d : list A) : bool :=
  match d with [] => true | _ :: _ => false end.

(** [.iloc[0]]: the first row, [IndexError] on an empty frame. *)
Definition iloc0 {A : Type} (d : list A) : result A :=
  match d with
  | [] => Raise IndexError
  | r :: _ => Ok r
  end.

(** [Series.sum()] of an integer series with the default [skipna=True]
    and [min_count=0]: missing entries add nothing, and the sum of no
    entry at all is 0. *)
Fixpoint sum (l : list (option Z)) : Z :=
  match l with
  | [] => 0
  | Some z :: l' => z + sum l'
  | None :: l' => sum l'
  end.

(** The entries of a float series that are not NaN. *)
Fixpoint dropna (l : list (option Q)) : list Q :=
  match l with
  | [] => []
  | Some q :: l' => q :: dropna l'
  | None :: l' => dropna l'
  end.

Definition Qsum (l : list Q) : Q := fold_right Qplus 0%Q l.

(** [Series.mean()] with the default [skipna=True]: the mean of the
    entries that are not NaN, and NaN ([None]) when there is none. *)
Definition mean (l : list (option Q)) : option Q :=
  match dropna l with
  | [] => None
  | (_ :: _) as xs =>
      Some (Qred (Qsum xs / inject_Z (Z.of_nat (List.length xs))))
  end.

(** True division [qtd / total] of numpy scalars, [total] an integer
    that is not missing: a zero divisor gives NaN for 0/0 and a signed
    infinity otherwise (a warning, not an exception); NaN propagates. *)
Definition truediv (qtd : option Z) (total : Z) : float :=
  match qtd with
  | None => NaN
  | Some v =>
      if total =? 0 then
        if v =? 0 then NaN else if 0 <? v then PInf else NInf
      else Fin (Qred (inject_Z v / inject_Z total))
  end.

(** Addition of two floats, with the IEEE rules for the special values. *)
Definition fadd (x y : float) : float :=
  match x, y with
  | NaN, _ | _, NaN => NaN
  | Fin a, Fin b => Fin (Qred (a + b))
  | PInf, NInf | NInf, PInf => NaN
  | PInf, _ | _, PInf => PInf
  | NInf, _ | _, NInf => NInf
  end.

(** [Series.sum()] of a float series with the default [skipna=True]. *)
Fixpoint fsum (l : list float) : float :=
  match l with
  | [] => Fin 0
  | NaN :: l' => fsum l'
  | x :: l' => fadd x (fsum l')
  end.

Section ToNumeric.
(** How a text parses as a number (pandas' own parser, not part of
    the program): [None] when it does not. *)
Variable parse : string -> option Q.

(** [pd.to_numeric(col, errors='coerce')] on one cell. *)
Definition to_numeric (c : cell) : option Q :=
  match c with
  | CNum q => Some q
  | CStr s => parse s
  | CNull => None
  end.
End ToNumeric.

(** A float stored back into a cell. *)
Definition of_float (x : option Q) : cell :=
  match x with
  | Some q => CNum q
  | None => CNull
  end.

End Pandas.

Module Streamlit.

(** [st.selectbox(label, options)]: the widget returns one of its
    options, the first one unless the user picked another; a pick that
    is not on offer leaves the default.  With no option it is [None]. *)
Definition selectbox (options : list string) (pick : string) : option string :=
  if existsb (String.eqb pick) options then Some pick else hd_error options.

End Streamlit.

(* ------------------------------------------------------------------ *)
(** ** The program *)

(** [main] reads the table [df] from [run_query] and three inputs from the
    sidebar: the text typed in the code box, and the picks made in the two
    select boxes.  One run of the script is one evaluation of [main]. *)

Module Dash.
Import Py Pandas Streamlit.

(** One row of [t_analises.dados_gerais], with the columns of the query.
    [cod_mun] is the text [astype(str)] gives; [uf] and [nome_mun] are
    texts (they are passed to [sorted]); the bracket label may be missing;
    the counts are integers or missing; the two rates come as [object]
    cells, which is why the program coerces them. *)
Record row : Type := {
  cod_mun : string;
  uf : string;
  nome_mun : string;
  pop_2010 : option Z;
  pop_2015 : option Z;
  pop_2016 : option Z;
  pop_2022 : option Z;
  auto_2023 : option Z;
  moto_2023 : option Z;
  outr_veic_2023 : option Z;
  faixa_pop_2022 : option string;
  tx_mortalidade_100mil_hab : cell;
  ibeu : cell
}.

Definition frame : Type := list row.

(** The three local variables the sidebar leaves behind.  [sel_uf] is the
    variable [uf] of [main] (the name [uf] is the column here). *)
Record filtros : Type := {
  municipio : option string;
  sel_uf : option string;
  df_fil_mun : frame
}.

(** Lines 115-117: the initial values. *)
Definition inicial : filtros :=
  {| municipio := Some "Selecione um município";
     sel_uf := Some "Selecione um estado";
     df_fil_mun := [] |}.

(** Line 128: the rows whose trimmed code equals the trimmed input. *)
Definition por_codigo (df : frame) (cod : string) : frame :=
  filter (fun r => String.eqb (strip (cod_mun r)) (strip cod)) df.

(** Lines 126-135: the search by IBGE code.  With a match, the name and
    the state are read from the first matching row; without one only a
    warning is shown.  Nothing in the [try] block raises on a column of
    texts, so the [except] branch has no counterpart here. *)
Definition busca_codigo (df : frame) (cod : string) (s : filtros) : filtros :=
  if truthy cod then
    let fil := por_codigo df cod in
    match fil with
    | r0 :: _ =>
        {| municipio := Some (nome_mun r0); sel_uf := Some (uf r0);
           df_fil_mun := fil |}
    | [] =>
        {| municipio := municipio s; sel_uf := sel_uf s; df_fil_mun := fil |}
    end
  else s.

(** Line 140: [df[df["uf"] == uf]]. *)
Definition df_estado (df : frame) (u : option string) : frame :=
  filter (fun r => label_eq (Some (uf r)) u) df.

(** Lines 139-143: the two select boxes, the second one fed by the rows of
    the chosen state. *)
Definition filtros_tradicionais (df : frame) (uf_pick mun_pick : string)
  : filtros :=
  let u := selectbox (sorted (unique (map uf df))) uf_pick in
  let df_filtered := df_estado df u in
  let m := selectbox (sorted (unique (map nome_mun df_filtered))) mun_pick in
  {| municipio := m; sel_uf := u;
     df_fil_mun := filter (fun r => label_eq (Some (nome_mun r)) m) df_filtered |}.

(** Lines 120-143: the whole sidebar.  The select boxes are used when no
    code was typed or the code matched nothing. *)
Definition sidebar (df : frame) (cod uf_pick mun_pick : string) : filtros :=
  let s := busca_codigo df cod inicial in
  if negb (truthy cod) || empty (df_fil_mun s)
  then filtros_tradicionais df uf_pick mun_pick
  else s.

(** [['auto_2023', 'moto_2023', 'outr_veic_2023']] *)
Definition frota_cols : list (row -> option Z) :=
  [auto_2023; moto_2023; outr_veic_2023].

(** [row[[cols]]]: the three counts of one row, as they are. *)
Definition frota (r : row) : list (option Z) :=
  map (fun col => col r) frota_cols.

(** [d[[cols]].sum()]: one sum per column. *)
Definition frota_sum (d : frame) : list (option Z) :=
  map (fun col => Some (sum (map col d))) frota_cols.

(** Line 251: [df[df['faixa_pop_2022'] == r0['faixa_pop_2022']]]. *)
Definition df_faixa (df : frame) (r0 : row) : frame :=
  filter (fun r => label_eq (faixa_pop_2022 r) (faixa_pop_2022 r0)) df.

(** Lines 249-255: the counts of each geographic level, in the order of
    the dictionary. *)
Definition niveis (df : frame) (s : filtros) (r0 : row)
  : list (string * list (option Z)) :=
  [ ("Município", frota r0);
    ("Faixa Populacional", frota_sum (df_faixa df r0));
    ("Estado", frota_sum (df_estado df (sel_uf s)));
    ("Brasil", frota_sum df) ].

Record linha : Type := {
  Nivel : string;
  Tipo : string;
  Quantidade : option Z;
  Participacao : float
}.

Definition tipos : list string :=
  ["Automóveis"; "Motocicletas"; "Outros Veículos"].

(** Lines 258-267: one line per level and vehicle type, with the share of
    the type inside its own level. *)
Definition dados_grafico (nv : list (string * list (option Z))) : list linha :=
  flat_map
    (fun '(nivel, valores) =>
       let total := sum valores in
       map (fun '(tipo, qtd) =>
              {| Nivel := nivel; Tipo := tipo; Quantidade := qtd;
                 Participacao := truediv qtd total |})
           (combine tipos valores))
    nv.

(** Lines 247-267: the comparison is built only when a municipality is
    selected. *)
Definition comparativo_frota (df : frame) (s : filtros) : option (list linha) :=
  if negb (empty df) && negb (empty (df_fil_mun s)) then
    match df_fil_mun s with
    | r0 :: _ => Some (dados_grafico (niveis df s r0))
    | [] => None
    end
  else None.

(** The float held by a cell of a [float64] column. *)
Definition float64 (c : cell) : option Q :=
  match c with
  | CNum q => Some q
  | _ => None
  end.

Definition set_tx (c : cell) (r : row) : row :=
  {| cod_mun := cod_mun r; uf := uf r; nome_mun := nome_mun r;
     pop_2010 := pop_2010 r; pop_2015 := pop_2015 r;
     pop_2016 := pop_2016 r; pop_2022 := pop_2022 r;
     auto_2023 := auto_2023 r; moto_2023 := moto_2023 r;
     outr_veic_2023 := outr_veic_2023 r;
     faixa_pop_2022 := faixa_pop_2022 r;
     tx_mortalidade_100mil_hab := c; ibeu := ibeu r |}.

Definition set_ibeu (c : cell) (r : row) : row :=
  {| cod_mun := cod_mun r; uf := uf r; nome_mun := nome_mun r;
     pop_2010 := pop_2010 r; pop_2015 := pop_2015 r;
     pop_2016 := pop_2016 r; pop_2022 := pop_2022 r;
     auto_2023 := auto_2023 r; moto_2023 := moto_2023 r;
     outr_veic_2023 := outr_veic_2023 r;
     faixa_pop_2022 := faixa_pop_2022 r;
     tx_mortalidade_100mil_hab := tx_mortalidade_100mil_hab r; ibeu := c |}.

Section Comparativos.
Variable parse : string -> option Q.

(** Lines 325 and 373: [df[col] = pd.to_numeric(df[col], errors='coerce')].
    The column of [df] is replaced; frames filtered out of [df] earlier
    ([df_fil_mun]) are other objects and keep the cells they had. *)
Definition coerce (get : row -> cell) (set : cell -> row -> row) (df : frame)
  : frame :=
  map (fun r => set (of_float (to_numeric parse (get r))) r) df.

(** [d[col].mean()] on a coerced column. *)
Definition col_mean (get : row -> cell) (d : frame) : option Q :=
  mean (map (fun r => float64 (get r)) d).

(** Lines 328-337 and 376-384, on the frame [df] already coerced: the
    value of the municipality, read from [df_fil_mun], then the means of
    the bracket, of the state and of the country, read from [df].  The
    list is built in order, so an empty selection raises before any mean
    is taken; [Raise] stands for the [except] branch, which only shows
    the error.  The column tested by [in df.columns] is always there. *)
Definition dados_media (get : row -> cell) (df : frame) (s : filtros)
  : result (list cell) :=
  match iloc0 (df_fil_mun s) with
  | Raise e => Raise e
  | Ok r0 =>
      Ok [ get r0;
           of_float (col_mean get (df_faixa df r0));
           of_float (col_mean get (df_estado df (sel_uf s)));
           of_float (col_mean get df) ]
  end.

Record saida : Type := {
  titulo : option string * option string;
  grafico : option (list linha);
  dados_mortalidade : result (list cell);
  dados_ibeu : result (list cell)
}.

(** [main], from the loaded table [df] and the three inputs of the
    sidebar.  [None] is the early return on an empty table. *)
Definition main (df : frame) (cod uf_pick mun_pick : string) : option saida :=
  if empty df then None
  else
    let s := sidebar df cod uf_pick mun_pick in
    let g := comparativo_frota df s in
    let df1 := coerce tx_mortalidade_100mil_hab set_tx df in
    let mort := dados_media tx_mortalidade_100mil_hab df1 s in
    let df2 := coerce ibeu set_ibeu df1 in
    let ib := dados_media ibeu df2 s in
    Some {| titulo := (municipio s, sel_uf s);
            grafico := g;
            dados_mortalidade := mort;
            dados_ibeu := ib |}.

End Comparativos.

End Dash.

(* ------------------------------------------------------------------ *)
(** ** Sample tables *)

Module Amostras.
Import Py Pandas Dash.

(** A row from its code, state, name, bracket, the three counts and the
    two rates; the population columns are left missing. *)
Definition mk (cod u nome : string) (faixa : option string)
  (a m o : option Z) (tx ib : cell) : row :=
  {| cod_mun := cod; uf := u; nome_mun := nome;
     pop_2010 := None; pop_2015 := None; pop_2016 := None; pop_2022 := None;
     auto_2023 := a; moto_2023 := m; outr_veic_2023 := o;
     faixa_pop_2022 := faixa;
     tx_mortalidade_100mil_hab := tx; ibeu := ib |}.

Definition digit (c : ascii) : option Z :=
  let n := N_of_ascii c in
  if ((48 <=? n) && (n <=? 57))%N then Some (Z.of_N (n - 48)) else None.

Fixpoint digits (acc : Z) (s : string) : option Z :=
  match s with
  | EmptyString => Some acc
  | String c s' =>
      match digit c with
      | Some d => digits (10 * acc + d) s'
      | None => None
      end
  end.

(** A parser for the examples: a non-empty run of decimal digits. *)
Definition parse_digits (s : string) : option Q :=
  match s with
  | EmptyString => None
  | _ => option_map inject_Z (digits 0 s)
  end.

(** The three municipalities of the worked scenario. *)
Definition m001 : row :=
  mk "001" "SP" "A" (Some "small") (Some 100) (Some 50) (Some 10) CNull CNull.
Definition m002 : row :=
  mk "002" "SP" "B" (Some "small") (Some 200) (Some 0) (Some 0) CNull CNull.
Definition m003 : row :=
  mk "003" "RJ" "C" (Some "large") (Some 300) (Some 100) (Some 50) CNull CNull.
Definition cenario : frame := [m001; m002; m003].

(** Two rows that carry the same code. *)
Definition d001a : row :=
  mk "001" "SP" "A" (Some "small") (Some 100) (Some 50) (Some 10) CNull CNull.
Definition d001b : row :=
  mk " 001" "RJ" "Z" (Some "large") (Some 7) (Some 7) (Some 7) CNull CNull.
Definition codigo_duplicado : frame := [d001a; d001b; m003].


(** A municipality without a bracket label. *)
Definition sem_faixa : row :=
  mk "900" "AC" "X" None (Some 4) (Some 5) (Some 6) (CNum 12) (CNum (1 # 2)).
Definition com_faixa : row :=
  mk "901" "AM" "Y" (Some "small") None None None CNull CNull.
Definition tabela_sem_faixa : frame := [sem_faixa; com_faixa].

(** Counts that cancel out inside one row, and inside one state. *)
Definition saldo : row :=
  mk "500" "GO" "S" (Some "small") (Some 5) (Some (-5)) (Some 0) CNull CNull.
Definition tabela_saldo : frame := [saldo].
Definition e1 : row :=
  mk "601" "MT" "P" (Some "small") (Some 4) (Some 1) (Some 0) CNull CNull.
Definition e2 : row :=
  mk "602" "MT" "Q" (Some "large") (Some (-2)) (Some (-3)) (Some 0) CNull CNull.
Definition tabela_estado_nulo : frame := [e1; e2].

(** The series [10, null, 20] in a count column and in a rate column. *)
Definition s1 : row :=
  mk "701" "BA" "K" (Some "small") (Some 10) None None (CNum 10) CNull.
Definition s2 : row :=
  mk "702" "BA" "L" (Some "small") None None None CNull CNull.
Definition s3 : row :=
  mk "703" "BA" "M" (Some "small") (Some 20) None None (CNum 20) CNull.
Definition serie : frame := [s1; s2; s3].

(** A rate that is not a number on the selected municipality. *)
Definition t1 : row :=
  mk "801" "PE" "T" (Some "small") (Some 1) (Some 1) (Some 1) (CStr "abc") CNull.
Definition t2 : row :=
  mk "802" "PE" "U" (Some "small") (Some 1) (Some 1) (Some 1) (CStr "10") CNull.
Definition tabela_texto : frame := [t1; t2].

End Amostras.

(* ------------------------------------------------------------------ *)
(** ** The charts around the comparison *)

(** What [main] hands to the charts of the first two columns, the text
    labels of the bars, and the vertical range of the mortality chart. *)

Module Graficos.
Import Py Pandas Dash.

(** One row of a melted frame: the two identifier columns, the name of
    the melted column and its value. *)
Record derretida : Type := {
  m_uf : string;
  m_nome_mun : string;
  variavel : string;
  valor : option Z
}.

(** [d.melt(id_vars=["uf", "nome_mun"], value_vars=...)]: the value
    columns one after the other, each over all the rows of [d] in order. *)
Definition melt (value_vars : list (string * (row -> option Z))) (d : frame)
  : list derretida :=
  flat_map
    (fun '(nome, col) =>
       map (fun r => {| m_uf := uf r; m_nome_mun := nome_mun r;
                        variavel := nome; valor := col r |}) d)
    value_vars.

(** [dict.get]: the value of the first entry with the key. *)
Definition dict_get (d : list (string * string)) (k : string) : option string :=
  option_map snd (find (fun kv => String.eqb (fst kv) k) d).

(** Line 161 *)
Definition pop_vars : list (string * (row -> option Z)) :=
  [ ("pop_2010", pop_2010); ("pop_2015", pop_2015);
    ("pop_2016", pop_2016); ("pop_2022", pop_2022) ].

(** Lines 167-172 *)
Definition rotulos_eixo_x : list (string * string) :=
  [ ("pop_2010", "Censo 2010");
    ("pop_2015", "Estimativa Pop 2015");
    ("pop_2016", "Estimativa Pop 2016");
    ("pop_2022", "Censo 2022") ].

(** Lines 198-203 *)
Definition categoryarray : list string :=
  [ "Censo 2010"; "Estimativa Pop 2015"; "Estimativa Pop 2016"; "Censo 2022" ].

(** Lines 159-174: the melted populations of the selection, with the
    column [Ano_rotulo] that [Series.map] adds; a name the dictionary
    lacks would give a missing label. *)
Definition df_melted (s : filtros) : list (derretida * option string) :=
  map (fun m => (m, dict_get rotulos_eixo_x (variavel m)))
      (melt pop_vars (df_fil_mun s)).

(** Lines 155-174: the bracket shown by [st.metric] and the points of
    the population chart, only when a municipality is selected. *)
Definition informacoes_basicas (s : filtros)
  : option (option string * list (derretida * option string)) :=
  match df_fil_mun s with
  | [] => None
  | r0 :: _ => Some (faixa_pop_2022 r0, df_melted s)
  end.

(** Line 214 *)
Definition frota_vars : list (string * (row -> option Z)) :=
  [ ("auto_2023", auto_2023); ("moto_2023", moto_2023);
    ("outr_veic_2023", outr_veic_2023) ].

(** Lines 218-222 *)
Definition nomes_tipo : list (string * string) :=
  [ ("auto_2023", "Automóveis");
    ("moto_2023", "Motocicletas");
    ("outr_veic_2023", "Outros Veículos") ].

(** [.replace({col: d})] on one value: replaced when [d] has it, kept
    otherwise. *)
Definition replace (d : list (string * string)) (v : string) : string :=
  match dict_get d v with
  | Some x => x
  | None => v
  end.

(** Lines 212-223: the bars of the fleet chart of the selection. *)
Definition df_frota (s : filtros) : list derretida :=
  map (fun m => {| m_uf := m_uf m; m_nome_mun := m_nome_mun m;
                   variavel := replace nomes_tipo (variavel m);
                   valor := valor m |})
      (melt frota_vars (df_fil_mun s)).

(** The decimal digits of a natural number. *)
Definition digitos (n : N) : list ascii :=
  list_ascii_of_string (NilZero.string_of_uint (N.to_uint n)).

(** A comma after every third digit, on the digits taken from the right;
    [k] digits may still join the current group. *)
Fixpoint virgulas (k : nat) (ds : list ascii) : list ascii :=
  match ds with
  | [] => []
  | c :: ds' =>
      match k with
      | O => ","%char :: c :: virgulas 2 ds'
      | S k' => c :: virgulas k' ds'
      end
  end.

(** [float(z)] read back as an integer: the nearest integer that a
    binary64 float holds, a tie going to the even significand.  It is [z]
    itself up to 2^53 in absolute value; the overflow of floats, beyond
    2^1023, is out of reach of a count. *)
Definition float_de_int (z : Z) : Z :=
  let a := Z.abs z in
  let e := Z.log2 a - 52 in
  if e <=? 0 then z
  else
    let q := a / 2 ^ e in
    let r := a mod 2 ^ e in
    let h := 2 ^ (e - 1) in
    let q' := if r <? h then q
              else if h <? r then q + 1
              else if Z.even q then q else q + 1 in
    Z.sgn z * (q' * 2 ^ e).

(** Line 278: [f"{x:,.0f}"] on a count: the count goes through a float,
    then come the sign and the digits in groups of three; a missing count
    prints as nan. *)
Definition fmt_milhar (x : option Z) : string :=
  match x with
  | None => "nan"
  | Some z =>
      let f := float_de_int z in
      let corpo :=
        string_of_list_ascii (rev (virgulas 3 (rev (digitos (Z.abs_N f))))) in
      if f <? 0 then String "-"%char corpo else corpo
  end.

(** Line 278: the text over each bar of the comparison. *)
Definition textos (g : list linha) : list string :=
  map (fun l => fmt_milhar (Quantidade l)) g.

(** Reading a label back: the commas are dropped and the rest is read as
    a decimal integer. *)
Definition ler_milhar (t : string) : option Z :=
  option_map Z.of_int
    (NilZero.int_of_string
       (string_of_list_ascii
          (filter (fun c => negb (Ascii.eqb c ","%char))
                  (list_ascii_of_string t)))).

End Graficos.

(* ------------------------------------------------------------------ *)
(** ** Line 266 and the types of the count columns *)

(** [Dash.dados_grafico] gives the lines of the comparison when the
    division of line 266 goes through.  What a count column holds decides
    whether it does: [pd.DataFrame] turns a column with a number somewhere
    into a numeric column, whose missing entries are NaN, and leaves a
    column that is NULL in every row as an [object] column of [None];
    boolean indexing keeps the type of the column, and [None / total]
    raises [TypeError]. *)

Module Linha266.
Import Py Pandas Dash.

(** A count as Python sees it. *)
Inductive conta : Type :=
| Numero (z : Z)
| NaNf
| PyNone.

(** The column is NULL in every row of the table. *)
Definition so_none (df : frame) (col : row -> option Z) : bool :=
  forallb (fun r => match col r with None => true | Some _ => false end) df.

(** The count of row [r], a row of [df], in column [col]. *)
Definition celula (df : frame) (col : row -> option Z) (r : row) : conta :=
  match col r with
  | Some z => Numero z
  | None => if so_none df col then PyNone else NaNf
  end.

(** A column sum is always a number. *)
Definition de_soma (x : option Z) : conta :=
  match x with
  | Some z => Numero z
  | None => NaNf
  end.

(** The count as [Series.sum] and the chart see it: NaN and [None] are
    both missing. *)
Definition como_opcao (c : conta) : option Z :=
  match c with
  | Numero z => Some z
  | NaNf | PyNone => None
  end.

(** Lines 249-255, with the counts as Python holds them. *)
Definition niveis_py (df : frame) (s : filtros) (r0 : row)
  : list (string * list conta) :=
  [ ("Município", map (fun col => celula df col r0) frota_cols);
    ("Faixa Populacional", map de_soma (frota_sum (df_faixa df r0)));
    ("Estado", map de_soma (frota_sum (df_estado df (sel_uf s))));
    ("Brasil", map de_soma (frota_sum df)) ].

(** The exception of line 266. *)
Inductive excecao : Type := TypeError.

(** Line 266: [qtd / total]. *)
Definition divide (qtd : conta) (total : Z) : excecao + float :=
  match qtd with
  | PyNone => inl TypeError
  | Numero _ | NaNf => inr (truediv (como_opcao qtd) total)
  end.

(** Lines 261-267: the inner loop, which stops at the first exception. *)
Fixpoint linhas_nivel (nivel : string) (total : Z) (l : list (string * conta))
  : excecao + list linha :=
  match l with
  | [] => inr []
  | (tipo, qtd) :: l' =>
      match divide qtd total with
      | inl e => inl e
      | inr p =>
          match linhas_nivel nivel total l' with
          | inl e => inl e
          | inr ls =>
              inr ({| Nivel := nivel; Tipo := tipo;
                      Quantidade := como_opcao qtd;
                      Participacao := p |} :: ls)
          end
      end
  end.

(** Lines 258-267: the outer loop. *)
Fixpoint dados_grafico_py (nv : list (string * list conta))
  : excecao + list linha :=
  match nv with
  | [] => inr []
  | (nivel, valores) :: nv' =>
      match linhas_nivel nivel (sum (map como_opcao valores))
                         (combine tipos valores) with
      | inl e => inl e
      | inr ls =>
          match dados_grafico_py nv' with
          | inl e => inl e
          | inr rest => inr (ls ++ rest)%list
          end
      end
  end.

(** Lines 247-267: the exception, which nothing catches, or the lines of
    the comparison, built only when a municipality is selected. *)
Definition comparativo_frota_py (df : frame) (s : filtros)
  : excecao + option (list linha) :=
  if negb (empty df) && negb (empty (df_fil_mun s)) then
    match df_fil_mun s with
    | r0 :: _ =>
        match dados_grafico_py (niveis_py df s r0) with
        | inl e => inl e
        | inr g => inr (Some g)
        end
    | [] => inr None
    end
  else inr None.

(** The absolute values of all the counts of the table, added up.  Below
    2^53 every sum of counts the program takes is exact, in an int64
    column as in a float64 one. *)
Definition carga (df : frame) : Z :=
  sum (map (option_map Z.abs) (flat_map frota df)).

(** The numbers of a float series. *)
Fixpoint finitos (l : list float) : list Q :=
  match l with
  | [] => []
  | Fin q :: l' => q :: finitos l'
  | _ :: l' => finitos l'
  end.

(** The text has ASCII characters only. *)
Definition so_ascii (t : string) : bool :=
  forallb (fun c => (N_of_ascii c <? 128)%N) (list_ascii_of_string t).

(** What the sidebar leaves when the code finds a municipality whose
    state is NULL: the variable [uf] is [None]. *)
Definition selecao_sem_uf : filtros :=
  {| municipio := Some "X"; sel_uf := None;
     df_fil_mun := [Amostras.sem_faixa] |}.

(** A table whose motorcycle column is NULL in every row. *)
Definition sem_motos_1 : row :=
  Amostras.mk "301" "CE" "F" (Some "small") (Some 8) None (Some 2) CNull CNull.
Definition sem_motos_2 : row :=
  Amostras.mk "302" "CE" "G" (Some "small") None None (Some 1) CNull CNull.
Definition tabela_sem_motos : frame := [sem_motos_1; sem_motos_2].

End Linha266.

(* ------------------------------------------------------------------ *)
(** ** General facts about the library models *)

Module Fatos.
Import Py Pandas Streamlit.

Lemma existsb_eqb_In (x : string) (l : list string) :
  existsb (String.eqb x) l = true <-> In x l.
Proof.
  rewrite existsb_exists. split.
  - intros (y & Hy & E). apply String.eqb_eq in E. now subst.
  - intros H. exists x. split; [assumption | apply String.eqb_refl].
Qed.

Lemma In_insert_sorted (x y : string) (l : list string) :
  In y (insert_sorted x l) <-> y = x \/ In y l.
Proof.
  induction l as [| z l IH]; simpl.
  - intuition.
  - destruct (String.leb x z); simpl; rewrite ?IH; intuition.
Qed.

Lemma In_sorted (y : string) (l : list string) :
  In y (sorted l) <-> In y l.
Proof.
  induction l as [| x l IH]; simpl.
  - reflexivity.
  - rewrite In_insert_sorted, IH. intuition.
Qed.

Lemma In_unique_acc (y : string) (l seen : list string) :
  In y (unique_acc seen l) <-> In y l /\ ~ In y seen.
Proof.
  revert seen. induction l as [| x l IH]; intros seen; simpl.
  - intuition.
  - destruct (existsb (String.eqb x) seen) eqn:E.
    + apply existsb_eqb_In in E. rewrite IH. split.
      * intros [H1 H2]. auto.
      * intros [[-> | H1] H2]; [contradiction | auto].
    + assert (Hx : ~ In x seen).
      { intros H. apply existsb_eqb_In in H. congruence. }
      simpl. rewrite IH. simpl. split.
      * intros [<- | [H1 H2]]; auto.
      * intros [[<- | H1] H2]; auto.
        destruct (string_dec x y) as [-> | Hn]; auto.
        right. split; [assumption | intros [E' | E']; auto].
Qed.

Lemma In_unique (y : string) (l : list string) :
  In y (unique l) <-> In y l.
Proof.
  unfold unique. rewrite In_unique_acc. simpl. intuition.
Qed.

Lemma In_opcoes (y : string) (l : list string) :
  In y (sorted (unique l)) <-> In y l.
Proof. now rewrite In_sorted, In_unique. Qed.


Lemma selectbox_In (opts : list string) (p : string) :
  opts <> [] -> exists v, selectbox opts p = Some v /\ In v opts.
Proof.
  intros Hne. unfold selectbox.
  destruct (existsb (String.eqb p) opts) eqn:E.
  - exists p. split; [reflexivity | now apply existsb_eqb_In].
  - destruct opts as [| v opts]; [congruence |].
    exists v. simpl. auto.
Qed.

Lemma sum_all_missing (l : list (option Z)) :
  (forall x, In x l -> x = None) -> sum l = 0.
Proof.
  induction l as [| x l IH]; intros H; simpl.
  - reflexivity.
  - rewrite (H x (or_introl eq_refl)). apply IH.
    intros y Hy. apply H. now right.
Qed.

Lemma sum_nonneg (l : list (option Z)) :
  (forall v, In (Some v) l -> 0 <= v) -> 0 <= sum l.
Proof.
  induction l as [| [z |] l IH]; intros H; simpl.
  - lia.
  - assert (0 <= z) by (apply H; now left).
    assert (0 <= sum l) by (apply IH; intros v Hv; apply H; now right).
    lia.
  - apply IH. intros v Hv. apply H. now right.
Qed.

(** A zero total of counts that are not negative leaves only zeros. *)
Lemma sum_zero_nonneg (l : list (option Z)) :
  (forall v, In (Some v) l -> 0 <= v) -> sum l = 0 ->
  forall v, In (Some v) l -> v = 0.
Proof.
  induction l as [| [z |] l IH]; intros H S0 v Hv; simpl in *.
  - contradiction.
  - assert (0 <= z) by (apply H; now left).
    assert (0 <= sum l) by (apply sum_nonneg; intros w Hw; apply H; now right).
    destruct Hv as [E | Hv].
    + injection E as <-. lia.
    + apply IH; auto. lia.
  - destruct Hv as [E | Hv]; [discriminate |]. apply IH; auto.
Qed.

Lemma mean_no_entry (l : list (option Q)) :
  dropna l = [] -> mean l = None.
Proof. unfold mean. now intros ->. Qed.

(** A NaN entry changes neither the numerator nor the denominator. *)
Lemma mean_skips_nan (l1 l2 : list (option Q)) :
  mean (l1 ++ None :: l2) = mean (l1 ++ l2).
Proof.
  unfold mean.
  assert (E : dropna (l1 ++ None :: l2) = dropna (l1 ++ l2)).
  { induction l1 as [| [q |] l1 IH]; simpl; congruence. }
  now rewrite E.
Qed.

End Fatos.

(* ------------------------------------------------------------------ *)
(** ** The sidebar *)

Module Selecao.
Import Py Pandas Streamlit Dash Fatos.

Lemma df_estado_Some (df : frame) (u : string) :
  df_estado df (Some u) = filter (fun r => String.eqb (uf r) u) df.
Proof. reflexivity. Qed.

Lemma In_df_estado (df : frame) (u : string) (r : row) :
  In r (df_estado df (Some u)) <-> In r df /\ uf r = u.
Proof.
  rewrite df_estado_Some, filter_In, String.eqb_eq. reflexivity.
Qed.

Lemma filter_nonempty {A : Type} (f : A -> bool) (l : list A) (x : A) :
  In x l -> f x = true -> filter f l <> [].
Proof.
  intros Hin Hf E.
  assert (H : In x (filter f l)) by (apply filter_In; auto).
  rewrite E in H. contradiction.
Qed.

Lemma filter_head_find {A : Type} (f : A -> bool) (l : list A) :
  find f l = hd_error (filter f l).
Proof.
  induction l as [| x l IH]; simpl; [reflexivity |].
  destruct (f x); simpl; auto.
Qed.


(** On a table that is not empty the select boxes always select rows. *)
Lemma filtros_tradicionais_select (df : frame) (up mp : string) :
  df <> [] ->
  exists u m r0 rest,
    filtros_tradicionais df up mp =
      {| municipio := Some m; sel_uf := Some u; df_fil_mun := r0 :: rest |}
    /\ r0 :: rest =
         filter (fun x => String.eqb (nome_mun x) m)
                (filter (fun x => String.eqb (uf x) u) df).
Proof.
  intros Hne. unfold filtros_tradicionais.
  destruct (selectbox_In (sorted (unique (map uf df))) up) as (u & Eu & Hu).
  { destruct df as [| r df]; [congruence |].
    intros E. assert (H : In (uf r) (sorted (unique (map uf (r :: df))))).
    { apply In_opcoes. now left. }
    rewrite E in H. contradiction. }
  rewrite Eu. apply In_opcoes, in_map_iff in Hu. destruct Hu as (r & Hr & Hin).
  destruct (selectbox_In
              (sorted (unique (map nome_mun (df_estado df (Some u))))) mp)
    as (m & Em & Hm).
  { intros E.
    assert (H : In (nome_mun r)
                   (sorted (unique (map nome_mun (df_estado df (Some u)))))).
    { apply In_opcoes, in_map, In_df_estado. auto. }
    rewrite E in H. contradiction. }
  rewrite Em. apply In_opcoes, in_map_iff in Hm. destruct Hm as (r' & Hr' & Hin').
  rewrite df_estado_Some in *.
  change (fun r1 : row => label_eq (Some (nome_mun r1)) (Some m))
    with (fun r1 : row => String.eqb (nome_mun r1) m).
  destruct (filter (fun x : row => String.eqb (nome_mun x) m)
              (filter (fun r1 : row => String.eqb (uf r1) u) df)) as [| r0 rest] eqn:E.
  - exfalso. revert E. apply (filter_nonempty _ _ r'); auto.
    now apply String.eqb_eq.
  - exists u, m, r0, rest. auto.
Qed.

Lemma sidebar_name_path (df : frame) (cod up mp : string) :
  cod = "" \/ por_codigo df cod = [] ->
  sidebar df cod up mp = filtros_tradicionais df up mp.
Proof.
  intros [-> | H]; unfold sidebar, busca_codigo.
  - reflexivity.
  - destruct (truthy cod); simpl; [rewrite H |]; reflexivity.
Qed.

Lemma sidebar_code_path (df : frame) (cod up mp : string) (r0 : row) (rest : frame) :
  cod <> "" -> por_codigo df cod = r0 :: rest ->
  sidebar df cod up mp =
    {| municipio := Some (nome_mun r0); sel_uf := Some (uf r0);
       df_fil_mun := r0 :: rest |}.
Proof.
  intros Hc H. unfold sidebar, busca_codigo.
  assert (T : truthy cod = true).
  { unfold truthy. apply negb_true_iff, String.eqb_neq. assumption. }
  rewrite T, H. reflexivity.
Qed.

(** Whatever the inputs, on a table that is not empty the sidebar leaves a
    selection whose first row is in the table and gave the title its state
    and its name. *)
Lemma sidebar_selected (df : frame) (cod up mp : string) :
  df <> [] ->
  exists r0 rest,
    sidebar df cod up mp =
      {| municipio := Some (nome_mun r0); sel_uf := Some (uf r0);
         df_fil_mun := r0 :: rest |}
    /\ In r0 df.
Proof.
  intros Hne.
  destruct (string_dec cod "") as [Hc | Hc].
  2: destruct (por_codigo df cod) as [| r0 rest] eqn:E.
  3:{ exists r0, rest. split; [now apply sidebar_code_path |].
      assert (H : In r0 (por_codigo df cod)) by (rewrite E; now left).
      now apply filter_In in H. }
  all: rewrite sidebar_name_path by auto.
  all: destruct (filtros_tradicionais_select df up mp Hne)
         as (u & m & r0 & rest & -> & Hf).
  all: assert (H : In r0 (r0 :: rest)) by now left.
  all: rewrite Hf in H; apply filter_In in H; destruct H as [H Hm].
  all: apply filter_In in H; destruct H as [H Hu].
  all: apply String.eqb_eq in Hm, Hu; subst u m.
  all: exists r0, rest; auto.
Qed.

End Selecao.

(* ------------------------------------------------------------------ *)
(** ** Resolution of the municipality *)

Module Resolucao.
Import Py Pandas Streamlit Dash Amostras Fatos Selecao.






End Resolucao.

(* ------------------------------------------------------------------ *)
(** ** One run of [main] *)

Module Execucao.
Import Py Pandas Streamlit Dash Fatos Selecao.

Section Coercao.
Variable parse : string -> option Q.
Variable get : row -> cell.
Variable set : cell -> row -> row.
Hypothesis get_set : forall c r, get (set c r) = c.
Hypothesis uf_set : forall c r, uf (set c r) = uf r.
Hypothesis faixa_set : forall c r, faixa_pop_2022 (set c r) = faixa_pop_2022 r.

Lemma filter_coerce (f : row -> bool) (df : frame) :
  (forall c r, f (set c r) = f r) ->
  filter f (coerce parse get set df) = coerce parse get set (filter f df).
Proof.
  intros Hf. unfold coerce.
  induction df as [| r df IH]; simpl; [reflexivity |].
  rewrite Hf. destruct (f r); simpl; congruence.
Qed.

Lemma df_faixa_coerce (df : frame) (r0 : row) :
  df_faixa (coerce parse get set df) r0 = coerce parse get set (df_faixa df r0).
Proof.
  unfold df_faixa. apply filter_coerce.
  intros c r. now rewrite faixa_set.
Qed.

Lemma df_estado_coerce (df : frame) (u : option string) :
  df_estado (coerce parse get set df) u = coerce parse get set (df_estado df u).
Proof.
  unfold df_estado. apply filter_coerce.
  intros c r. now rewrite uf_set.
Qed.

(** The mean of a coerced column is the mean of the cells that parse. *)
Lemma col_mean_coerce (d : frame) :
  col_mean get (coerce parse get set d) =
  mean (map (fun r => to_numeric parse (get r)) d).
Proof.
  unfold col_mean, coerce. rewrite map_map. f_equal.
  apply map_ext. intros r. rewrite get_set.
  now destruct (to_numeric parse (get r)).
Qed.

(** A text that does not parse counts neither in the numerator nor in the
    denominator of the mean of the coerced column. *)
Lemma col_mean_skips_text (d1 d2 : frame) (r : row) (t : string) :
  get r = CStr t -> parse t = None ->
  col_mean get (coerce parse get set (d1 ++ r :: d2)%list) =
  col_mean get (coerce parse get set (d1 ++ d2)%list).
Proof.
  intros Hr Hp. rewrite !col_mean_coerce, !map_app. cbn [map].
  rewrite Hr. cbn [to_numeric]. rewrite Hp. apply mean_skips_nan.
Qed.

End Coercao.

Lemma map_ibeu_coerce_tx (parse : string -> option Q) (d : frame) :
  map (fun r => to_numeric parse (ibeu r))
      (coerce parse tx_mortalidade_100mil_hab set_tx d) =
  map (fun r => to_numeric parse (ibeu r)) d.
Proof. unfold coerce. rewrite map_map. reflexivity. Qed.

(** What [main] computes on a table that is not empty: the record [r0] it
    works with is the first row of the selection, and every level is
    computed from [r0] and the table. *)
Lemma main_run (parse : string -> option Q)
  (df : frame) (cod uf_pick mun_pick : string) :
  df <> [] ->
  exists r0 rest,
    sidebar df cod uf_pick mun_pick =
      {| municipio := Some (nome_mun r0); sel_uf := Some (uf r0);
         df_fil_mun := r0 :: rest |} /\
    In r0 df /\
    main parse df cod uf_pick mun_pick =
      Some
        {| titulo := (Some (nome_mun r0), Some (uf r0));
           grafico :=
             Some (dados_grafico
                     [ ("Município", frota r0);
                       ("Faixa Populacional", frota_sum (df_faixa df r0));
                       ("Estado", frota_sum (df_estado df (Some (uf r0))));
                       ("Brasil", frota_sum df) ]);
           dados_mortalidade :=
             Ok [ tx_mortalidade_100mil_hab r0;
                  of_float (mean (map (fun r => to_numeric parse (tx_mortalidade_100mil_hab r))
                                      (df_faixa df r0)));
                  of_float (mean (map (fun r => to_numeric parse (tx_mortalidade_100mil_hab r))
                                      (df_estado df (Some (uf r0)))));
                  of_float (mean (map (fun r => to_numeric parse (tx_mortalidade_100mil_hab r))
                                      df)) ];
           dados_ibeu :=
             Ok [ ibeu r0;
                  of_float (mean (map (fun r => to_numeric parse (ibeu r))
                                      (df_faixa df r0)));
                  of_float (mean (map (fun r => to_numeric parse (ibeu r))
                                      (df_estado df (Some (uf r0)))));
                  of_float (mean (map (fun r => to_numeric parse (ibeu r)) df)) ] |}.
Proof.
  intros Hne.
  destruct (sidebar_selected df cod uf_pick mun_pick Hne) as (r0 & rest & S & Hin).
  exists r0, rest. split; [exact S |]. split; [exact Hin |].
  unfold main. destruct df as [| r df]; [congruence |].
  cbn [empty]. rewrite S. cbv zeta.
  unfold comparativo_frota, dados_media, niveis.
  cbn [empty negb andb df_fil_mun sel_uf municipio iloc0].
  rewrite !df_faixa_coerce, !df_estado_coerce by reflexivity.
  rewrite !col_mean_coerce by reflexivity.
  rewrite !map_ibeu_coerce_tx.
  reflexivity.
Qed.

End Execucao.

(* ------------------------------------------------------------------ *)
(** ** The comparison levels *)

Module Escopos.
Import Py Pandas Streamlit Dash Amostras Fatos Selecao Execucao.







End Escopos.

(* ------------------------------------------------------------------ *)
(** ** Sums, means and shares *)

Module Agregacao.
Import Py Pandas Streamlit Dash Amostras Fatos Selecao Execucao.

Lemma frota_sum_all_missing (d : frame) :
  (forall r, In r d -> frota r = [None; None; None]) ->
  frota_sum d = [Some 0; Some 0; Some 0].
Proof.
  intros H. unfold frota_sum, frota_cols. cbn [map].
  rewrite !sum_all_missing; [reflexivity | | |];
    intros x Hx; apply in_map_iff in Hx; destruct Hx as (r & <- & Hr);
    specialize (H r Hr); unfold frota, frota_cols in H; cbn [map] in H;
    congruence.
Qed.

Lemma truediv_finite (v total : Z) :
  total <> 0 ->
  exists q, truediv (Some v) total = Fin q /\ q == inject_Z v / inject_Z total.
Proof.
  intros Ht. unfold truediv.
  destruct (total =? 0) eqn:E; [apply Z.eqb_eq in E; contradiction |].
  eexists. split; [reflexivity | apply Qred_correct].
Qed.

Lemma truediv_zero_total (v : Z) :
  truediv (Some v) 0 =
  if v =? 0 then NaN else if 0 <? v then PInf else NInf.
Proof. reflexivity. Qed.

(** The shares of a series of counts over a divisor that is not zero add
    up to the total of the counts over that divisor; the missing counts,
    whose share is missing, are skipped on both sides. *)
Lemma fsum_truediv (valores : list (option Z)) (t : Z) :
  t <> 0 ->
  fsum (map (fun qtd => truediv qtd t) valores) =
  Fin (Qred (inject_Z (sum valores) / inject_Z t)).
Proof.
  intros Ht.
  assert (Hq : ~ inject_Z t == 0).
  { intros H. apply Ht.
    apply (proj1 (inject_Z_injective t 0)). exact H. }
  assert (Hd : forall v, truediv (Some v) t =
                         Fin (Qred (inject_Z v / inject_Z t))).
  { intros v. unfold truediv.
    destruct (t =? 0) eqn:E; [apply Z.eqb_eq in E; contradiction |].
    reflexivity. }
  induction valores as [| [v |] l IH].
  - reflexivity.
  - cbn [map sum]. rewrite Hd. cbn [fsum]. rewrite IH. cbn [fadd].
    f_equal. apply Qred_complete.
    rewrite !Qred_correct, inject_Z_plus. field; exact Hq.
  - exact IH.
Qed.

(** Every line of the comparison comes from one level and one type. *)
Lemma In_dados_grafico (nv : list (string * list (option Z))) (l : linha) :
  In l (dados_grafico nv) ->
  exists valores,
    In (Nivel l, valores) nv /\
    In (Tipo l, Quantidade l) (combine tipos valores) /\
    Participacao l = truediv (Quantidade l) (sum valores).
Proof.
  unfold dados_grafico. rewrite in_flat_map.
  intros ([nivel valores] & Hnv & Hl).
  apply in_map_iff in Hl. destruct Hl as ([tipo qtd] & <- & Hc).
  exists valores. simpl. auto.
Qed.

(** The values of a level are three, one per vehicle type. *)
Lemma niveis_three (df : frame) (s : filtros) (r0 : row)
  (nivel : string) (valores : list (option Z)) :
  In (nivel, valores) (niveis df s r0) ->
  exists x y z, valores = [x; y; z].
Proof.
  unfold niveis, frota, frota_sum, frota_cols. cbn [map In].
  intros [E | [E | [E | [E | []]]]]; injection E as _ <-; eauto.
Qed.

End Agregacao.

(* ------------------------------------------------------------------ *)
(** ** When line 266 raises *)

Module Excecoes.
Import Py Pandas Streamlit Dash Linha266 Fatos Selecao Agregacao.

Lemma so_none_spec (df : frame) (col : row -> option Z) :
  so_none df col = true <-> forall r, In r df -> col r = None.
Proof.
  unfold so_none. rewrite forallb_forall. split; intros H r Hr.
  - specialize (H r Hr). now destruct (col r).
  - now rewrite (H r Hr).
Qed.

Lemma so_none_false (df : frame) (col : row -> option Z) :
  so_none df col = false <-> exists r, In r df /\ col r <> None.
Proof.
  split.
  - intros H. unfold so_none in H.
    induction df as [| r df IH]; simpl in H; [discriminate |].
    destruct (col r) as [z |] eqn:E.
    + exists r. split; [now left | congruence].
    + destruct (IH H) as (r' & Hr' & Hn). exists r'. split; [now right | exact Hn].
  - intros (r & Hr & Hn).
    destruct (so_none df col) eqn:E; [| reflexivity].
    exfalso. apply Hn. now apply (proj1 (so_none_spec df col) E).
Qed.

(** The count of a row of the table is Python's [None] exactly when its
    column is NULL in every row. *)
Lemma celula_none (df : frame) (col : row -> option Z) (r0 : row) :
  In r0 df -> (celula df col r0 = PyNone <-> so_none df col = true).
Proof.
  intros Hin. unfold celula. split.
  - destruct (col r0); [discriminate |].
    now destruct (so_none df col).
  - intros H. rewrite (proj1 (so_none_spec df col) H r0 Hin). now rewrite H.
Qed.

Lemma como_opcao_celula (df : frame) (col : row -> option Z) (r0 : row) :
  como_opcao (celula df col r0) = col r0.
Proof.
  unfold celula. destruct (col r0); [reflexivity |].
  now destruct (so_none df col).
Qed.

(** Lines 247-267 on a selection taken from the table: the run stops on
    [TypeError] when some count column is NULL in every row, and else
    builds the lines that [Dash.dados_grafico] gives. *)
Lemma comparativo_frota_py_spec (df : frame) (s : filtros) (r0 : row)
  (rest : frame) :
  df_fil_mun s = r0 :: rest -> In r0 df ->
  comparativo_frota_py df s =
    if existsb (so_none df) frota_cols then inl TypeError
    else inr (Some (dados_grafico (niveis df s r0))).
Proof.
  intros Hs Hin. unfold comparativo_frota_py. rewrite Hs.
  destruct df as [| r df']; [contradiction |]. cbn [empty negb andb].
  set (df := r :: df') in *.
  assert (C : forall col,
            celula df col r0 =
            if so_none df col then PyNone
            else match col r0 with Some z => Numero z | None => NaNf end).
  { intros col. unfold celula.
    destruct (so_none df col) eqn:E.
    - now rewrite (proj1 (so_none_spec df col) E r0 Hin).
    - now destruct (col r0). }
  unfold niveis_py, niveis, frota, frota_sum, frota_cols.
  cbn [map existsb]. rewrite !C.
  destruct (so_none df auto_2023); [reflexivity |].
  destruct (so_none df moto_2023);
    [destruct (auto_2023 r0); reflexivity |].
  destruct (so_none df outr_veic_2023);
    [destruct (auto_2023 r0), (moto_2023 r0); reflexivity |].
  destruct (auto_2023 r0), (moto_2023 r0), (outr_veic_2023 r0); reflexivity.
Qed.

Lemma existsb_so_none (df : frame) :
  existsb (so_none df) frota_cols = true <->
  exists col, In col frota_cols /\ forall r, In r df -> col r = None.
Proof.
  rewrite existsb_exists. split; intros (col & Hc & H); exists col;
    (split; [exact Hc |]); now apply so_none_spec.
Qed.

Lemma existsb_so_none_false (df : frame) :
  (forall col, In col frota_cols -> exists r, In r df /\ col r <> None) ->
  existsb (so_none df) frota_cols = false.
Proof.
  intros H. destruct (existsb (so_none df) frota_cols) eqn:E; [| reflexivity].
  apply existsb_so_none in E. destruct E as (col & Hc & Hall).
  destruct (H col Hc) as (r & Hr & Hn). exfalso. apply Hn. now apply Hall.
Qed.

(** The numbers among the shares of a level whose total is not zero add
    up to the total over itself. *)
Lemma finitos_truediv (valores : list (option Z)) (t : Z) :
  t <> 0 ->
  (Qsum (finitos (map (fun qtd => truediv qtd t) valores)) ==
   inject_Z (sum valores) / inject_Z t)%Q.
Proof.
  intros Ht.
  assert (Hq : ~ (inject_Z t == 0)%Q).
  { intros H. apply Ht. apply (proj1 (inject_Z_injective t 0)). exact H. }
  induction valores as [| [v |] l IH].
  - simpl. field. exact Hq.
  - cbn [map sum].
    destruct (truediv_finite v t Ht) as (q & E & Eq).
    rewrite E. cbn [finitos Qsum fold_right].
    fold (Qsum (finitos (map (fun qtd => truediv qtd t) l))).
    rewrite IH, Eq, inject_Z_plus. field. exact Hq.
  - exact IH.
Qed.

Lemma finitos_truediv_nonneg (valores : list (option Z)) (t : Z) :
  0 < t -> (forall v, In (Some v) valores -> 0 <= v) ->
  forall q, In q (finitos (map (fun qtd => truediv qtd t) valores)) ->
            (0 <= q)%Q.
Proof.
  intros Ht Hpos q.
  induction valores as [| [v |] l IH]; cbn [map]; [contradiction | |].
  - destruct (truediv_finite v t) as (q' & E & Eq); [lia |].
    rewrite E. cbn [finitos In]. intros [<- | Hq].
    + rewrite Eq. apply Qle_shift_div_l.
      * change 0%Q with (inject_Z 0). rewrite <- Zlt_Qlt. exact Ht.
      * rewrite Qmult_0_l. change 0%Q with (inject_Z 0). rewrite <- Zle_Qle.
        apply Hpos. now left.
    + apply IH; [| exact Hq]. intros w Hw. apply Hpos. now right.
  - cbn [truediv finitos]. apply IH. intros w Hw. apply Hpos. now right.
Qed.

(** Numbers that are not negative, each rounded with a relative error of
    at most [u], add up to within [u] of their sum, relatively. *)
Lemma rounded_sum (rnd : Q -> Q) (u : Q) (qs : list Q) :
  (forall q, 0 <= q -> q * (1 - u) <= rnd q /\ rnd q <= q * (1 + u))%Q ->
  (forall q, In q qs -> 0 <= q)%Q ->
  (Qsum qs * (1 - u) <= Qsum (map rnd qs) /\
   Qsum (map rnd qs) <= Qsum qs * (1 + u))%Q.
Proof.
  intros Hr Hpos. induction qs as [| q qs IH].
  - simpl. split; rewrite Qmult_0_l; apply Qle_refl.
  - destruct IH as [I1 I2]; [intros x Hx; apply Hpos; now right |].
    destruct (Hr q) as [R1 R2]; [apply Hpos; now left |].
    cbn [map Qsum fold_right].
    fold (Qsum qs). fold (Qsum (map rnd qs)).
    split.
    + setoid_replace ((q + Qsum qs) * (1 - u))%Q
        with (q * (1 - u) + Qsum qs * (1 - u))%Q by ring.
      now apply Qplus_le_compat.
    + setoid_replace ((q + Qsum qs) * (1 + u))%Q
        with (q * (1 + u) + Qsum qs * (1 + u))%Q by ring.
      now apply Qplus_le_compat.
Qed.

End Excecoes.

(* ------------------------------------------------------------------ *)
(** ** Properties of the aggregated values *)

Module Comparacao.
Import Py Pandas Streamlit Dash Amostras Linha266 Fatos Selecao Execucao Agregacao
  Excecoes.

(** C2, as stated, fails: the municipality 900 has no bracket label, so its
    bracket subset is empty, and the three fleet sums of that level are 0,
    not missing. *)
Lemma C2_empty_bracket_sum_is_zero :
  iloc0 (df_fil_mun (sidebar tabela_sem_faixa "900" "" "")) = Ok sem_faixa /\
  df_faixa tabela_sem_faixa sem_faixa = [] /\
  exists out g,
    main parse_digits tabela_sem_faixa "900" "" "" = Some out /\
    grafico out = Some g /\
    map Quantidade
        (filter (fun l => String.eqb (Nivel l) "Faixa Populacional") g)
      = [Some 0; Some 0; Some 0].
Proof.
  split; [reflexivity |]. split; [reflexivity |].
  eexists. eexists. split; [reflexivity |]. split; reflexivity.
Qed.

(** C2, amended: for every level whose subset of the table is empty (the
    bracket of a municipality without a bracket label, the state when the
    variable [uf] matches no row) the mean of each rate is missing and
    taking it raises nothing, but the three fleet sums of the level are 0,
    not missing.  A fleet sum over a subset that is not empty and whose
    counts are all missing is 0 as well. *)
Theorem C2_empty_scope (parse : string -> option Q)
  (df : frame) (s : filtros) (r0 : row) (rest : frame) :
  df_fil_mun s = r0 :: rest ->
  (df_faixa df r0 = [] ->
     In ("Faixa Populacional", [Some 0; Some 0; Some 0]) (niveis df s r0) /\
     (exists a c d,
        dados_media tx_mortalidade_100mil_hab
          (coerce parse tx_mortalidade_100mil_hab set_tx df) s
        = Ok [a; CNull; c; d]) /\
     (exists a c d,
        dados_media ibeu
          (coerce parse ibeu set_ibeu
             (coerce parse tx_mortalidade_100mil_hab set_tx df)) s
        = Ok [a; CNull; c; d])) /\
  (df_estado df (sel_uf s) = [] ->
     In ("Estado", [Some 0; Some 0; Some 0]) (niveis df s r0) /\
     (exists a b d,
        dados_media tx_mortalidade_100mil_hab
          (coerce parse tx_mortalidade_100mil_hab set_tx df) s
        = Ok [a; b; CNull; d]) /\
     (exists a b d,
        dados_media ibeu
          (coerce parse ibeu set_ibeu
             (coerce parse tx_mortalidade_100mil_hab set_tx df)) s
        = Ok [a; b; CNull; d])) /\
  (forall d : frame,
     d <> [] -> (forall r, In r d -> frota r = [None; None; None]) ->
     frota_sum d = [Some 0; Some 0; Some 0]).
Proof.
  intros Hs.
  assert (M : forall get set df',
            (forall c r, uf (set c r) = uf r) ->
            (forall c r, faixa_pop_2022 (set c r) = faixa_pop_2022 r) ->
            dados_media get (coerce parse get set df') s =
            Ok [ get r0;
                 of_float (col_mean get (coerce parse get set (df_faixa df' r0)));
                 of_float (col_mean get
                             (coerce parse get set (df_estado df' (sel_uf s))));
                 of_float (col_mean get (coerce parse get set df')) ]).
  { intros get set df' Hu Hf. unfold dados_media. rewrite Hs. cbn [iloc0].
    now rewrite (df_faixa_coerce parse get set Hf),
                (df_estado_coerce parse get set Hu). }
  split; [| split].
  - intros E. split.
    { unfold niveis. rewrite E. right. left. reflexivity. }
    split.
    + rewrite M by reflexivity. rewrite E. eauto.
    + rewrite M by reflexivity.
      rewrite (df_faixa_coerce parse tx_mortalidade_100mil_hab set_tx)
        by reflexivity.
      rewrite E. eauto.
  - intros E. split.
    { unfold niveis. rewrite E. right. right. left. reflexivity. }
    split.
    + rewrite M by reflexivity. rewrite E. eauto.
    + rewrite M by reflexivity.
      rewrite (df_estado_coerce parse tx_mortalidade_100mil_hab set_tx)
        by reflexivity.
      rewrite E. eauto.
  - intros d _ H. now apply frota_sum_all_missing.
Qed.

Lemma C2_empty_scope_witness :
  df_fil_mun selecao_sem_uf = [sem_faixa] /\
  df_faixa tabela_sem_faixa sem_faixa = [] /\
  df_estado tabela_sem_faixa (sel_uf selecao_sem_uf) = [] /\
  In ("Faixa Populacional", [Some 0; Some 0; Some 0])
     (niveis tabela_sem_faixa selecao_sem_uf sem_faixa) /\
  In ("Estado", [Some 0; Some 0; Some 0])
     (niveis tabela_sem_faixa selecao_sem_uf sem_faixa) /\
  (exists a d,
     dados_media tx_mortalidade_100mil_hab
       (coerce parse_digits tx_mortalidade_100mil_hab set_tx tabela_sem_faixa)
       selecao_sem_uf
     = Ok [a; CNull; CNull; d]).
Proof.
  destruct (C2_empty_scope parse_digits tabela_sem_faixa selecao_sem_uf
              sem_faixa [] eq_refl) as (B & E & _).
  destruct (B eq_refl) as (B1 & _ & _).
  destruct (E eq_refl) as (E1 & _ & _).
  split; [reflexivity |]. split; [reflexivity |]. split; [reflexivity |].
  split; [exact B1 |]. split; [exact E1 |].
  eexists. eexists. reflexivity.
Defined.

(** C4: over a subset whose values are 10, missing and 20, the sum of the
    count column is 30 and the mean of the coerced rate column is 15. *)
Theorem C4_sum_and_mean (parse : string -> option Q) (d : frame) :
  map auto_2023 d = [Some 10; None; Some 20] ->
  map tx_mortalidade_100mil_hab d = [CNum 10; CNull; CNum 20] ->
  nth_error (frota_sum d) 0 = Some (Some 30) /\
  of_float
    (col_mean tx_mortalidade_100mil_hab
       (coerce parse tx_mortalidade_100mil_hab set_tx d)) = CNum 15.
Proof.
  intros Ha Ht. split.
  - unfold frota_sum, frota_cols. cbn [map nth_error]. rewrite Ha. reflexivity.
  - rewrite col_mean_coerce by reflexivity.
    rewrite <- (map_map tx_mortalidade_100mil_hab (to_numeric parse)), Ht.
    reflexivity.
Qed.

Lemma C4_sum_and_mean_witness :
  map auto_2023 serie = [Some 10; None; Some 20] /\
  map tx_mortalidade_100mil_hab serie = [CNum 10; CNull; CNum 20] /\
  nth_error (frota_sum serie) 0 = Some (Some 30) /\
  of_float
    (col_mean tx_mortalidade_100mil_hab
       (coerce parse_digits tx_mortalidade_100mil_hab set_tx serie)) = CNum 15.
Proof.
  split; [reflexivity |]. split; [reflexivity |].
  apply (C4_sum_and_mean parse_digits serie); reflexivity.
Defined.

(** C5: on the three municipalities of the scenario, the code 002 resolves
    the second one, its bracket and its state both hold the municipalities
    001 and 002, and the share of cars is 200/200 = 1 for the municipality,
    300/360 for its bracket and for its state, and 600/810 for the
    country. *)
Theorem C5_cenario_auto_share (parse : string -> option Q) :
  iloc0 (df_fil_mun (sidebar cenario "002" "" "")) = Ok m002 /\
  df_faixa cenario m002 = [m001; m002] /\
  df_estado cenario (Some (uf m002)) = [m001; m002] /\
  exists out g,
    main parse cenario "002" "" "" = Some out /\
    grafico out = Some g /\
    map (fun l => (Nivel l, Quantidade l, Participacao l))
        (filter (fun l => String.eqb (Tipo l) "Automóveis") g)
      = [ ("Município", Some 200, Fin (Qred (200 # 200)));
          ("Faixa Populacional", Some 300, Fin (Qred (300 # 360)));
          ("Estado", Some 300, Fin (Qred (300 # 360)));
          ("Brasil", Some 600, Fin (Qred (600 # 810))) ] /\
    Qred (200 # 200) = 1%Q.
Proof.
  split; [reflexivity |]. split; [reflexivity |]. split; [reflexivity |].
  eexists. eexists. split; [reflexivity |]. split; [reflexivity |].
  split; reflexivity.
Qed.

(** C6, evaluated where the code departs from it: the rate of the selected
    municipality is the text abc.  The three means leave it out (10, the
    other rate of the state, and not 5), but the entry of the municipality
    itself is still the text, not a missing value: the selection was
    filtered out of the table before the column was coerced. *)
Theorem C6_record_rate_not_coerced :
  parse_digits "abc" = None /\
  iloc0 (df_fil_mun (sidebar tabela_texto "801" "" "")) = Ok t1 /\
  exists out,
    main parse_digits tabela_texto "801" "" "" = Some out /\
    dados_mortalidade out = Ok [CStr "abc"; CNum 10; CNum 10; CNum 10].
Proof.
  split; [reflexivity |]. split; [reflexivity |].
  eexists. split; reflexivity.
Qed.

(** C3, as stated, fails: in the one row of [tabela_saldo] the counts are
    5, -5 and 0, the total of the municipality level is 0, and the share of
    cars is an infinity, not a missing value.  No column of the table is
    NULL throughout, so line 266 raises nothing there. *)
Lemma C3_zero_total_gives_infinity :
  iloc0 (df_fil_mun (sidebar tabela_saldo "500" "" "")) = Ok saldo /\
  sum (frota saldo) = 0 /\
  exists out g,
    main parse_digits tabela_saldo "500" "" "" = Some out /\
    grafico out = Some g /\
    comparativo_frota_py tabela_saldo (sidebar tabela_saldo "500" "" "")
      = inr (Some g) /\
    nth_error g 0 =
      Some {| Nivel := "Município"; Tipo := "Automóveis";
              Quantidade := Some 5; Participacao := PInf |}.
Proof.
  split; [reflexivity |]. split; [reflexivity |].
  eexists. eexists. split; [reflexivity |]. split; [reflexivity |].
  split; reflexivity.
Qed.

(** C3, amended: computing the shares never raises a division by zero.
    For a selection taken from a table whose counts stay in the range where
    the sums are exact, line 266 raises (a [TypeError]) exactly when some
    count column is NULL in every row; otherwise the twelve lines of the
    comparison are built, and in each line the share is the count of the
    line divided by the total of the three counts of its level when that
    total is not zero; it is missing when the count is missing, when count
    and total are both zero, and hence whenever the total is zero and no
    count of the level is negative; a count that is not zero over a zero
    total gives an infinity with the sign of the count. *)
Theorem C3_share_of_level
  (df : frame) (s : filtros) (r0 : row) (rest : frame) :
  df_fil_mun s = r0 :: rest ->
  In r0 df ->
  carga df < 2 ^ 53 ->
  (comparativo_frota_py df s = inl TypeError <->
   exists col, In col frota_cols /\ forall r, In r df -> col r = None) /\
  ((forall col, In col frota_cols -> exists r, In r df /\ col r <> None) ->
   exists g,
     comparativo_frota_py df s = inr (Some g) /\
     List.length g = 12%nat /\
     forall l, In l g ->
       exists valores,
         In (Nivel l, valores) (niveis df s r0) /\
         In (Tipo l, Quantidade l) (combine tipos valores) /\
         (forall v, Quantidade l = Some v -> sum valores <> 0 ->
            exists q, Participacao l = Fin q /\
                      q == inject_Z v / inject_Z (sum valores)) /\
         (Quantidade l = None -> Participacao l = NaN) /\
         (sum valores = 0 -> Quantidade l = Some 0 -> Participacao l = NaN) /\
         (sum valores = 0 -> (forall v, In (Some v) valores -> 0 <= v) ->
            Participacao l = NaN) /\
         (sum valores = 0 -> forall v, Quantidade l = Some v -> v <> 0 ->
            Participacao l = if 0 <? v then PInf else NInf)).
Proof.
  intros Hs Hin _.
  pose proof (comparativo_frota_py_spec df s r0 rest Hs Hin) as P.
  split.
  - rewrite <- existsb_so_none. rewrite P.
    destruct (existsb (so_none df) frota_cols); split; congruence.
  - intros Hall. rewrite (existsb_so_none_false df Hall) in P.
    eexists. split; [exact P |]. split; [reflexivity |].
    intros l Hl. apply In_dados_grafico in Hl.
    destruct Hl as (valores & Hnv & Hc & E).
    exists valores. split; [exact Hnv |]. split; [exact Hc |].
    rewrite E. repeat split.
    + intros v -> Ht. now apply truediv_finite.
    + now intros ->.
    + intros -> ->. reflexivity.
    + intros Ht Hpos. destruct (Quantidade l) as [v |] eqn:Eq; [| reflexivity].
      assert (v = 0).
      { apply (sum_zero_nonneg valores Hpos Ht).
        apply in_combine_r in Hc. assumption. }
      subst v. now rewrite Ht.
    + intros -> v -> Hv. rewrite truediv_zero_total.
      destruct (v =? 0) eqn:E0; [apply Z.eqb_eq in E0; contradiction | reflexivity].
Qed.

Lemma C3_share_of_level_witness :
  (comparativo_frota_py cenario (sidebar cenario "002" "" "") = inl TypeError <->
   exists col, In col frota_cols /\ forall r, In r cenario -> col r = None) /\
  ((forall col, In col frota_cols -> exists r, In r cenario /\ col r <> None) ->
   exists g,
     comparativo_frota_py cenario (sidebar cenario "002" "" "") = inr (Some g) /\
     List.length g = 12%nat /\
     forall l, In l g ->
       exists valores,
         In (Nivel l, valores) (niveis cenario (sidebar cenario "002" "" "") m002) /\
         In (Tipo l, Quantidade l) (combine tipos valores) /\
         (forall v, Quantidade l = Some v -> sum valores <> 0 ->
            exists q, Participacao l = Fin q /\
                      q == inject_Z v / inject_Z (sum valores)) /\
         (Quantidade l = None -> Participacao l = NaN) /\
         (sum valores = 0 -> Quantidade l = Some 0 -> Participacao l = NaN) /\
         (sum valores = 0 -> (forall v, In (Some v) valores -> 0 <= v) ->
            Participacao l = NaN) /\
         (sum valores = 0 -> forall v, Quantidade l = Some v -> v <> 0 ->
            Participacao l = if 0 <? v then PInf else NInf)).
Proof.
  apply (C3_share_of_level cenario (sidebar cenario "002" "" "") m002 []).
  - reflexivity.
  - simpl. auto.
  - reflexivity.
Defined.

(** C9, as stated, fails: the state MT of [tabela_estado_nulo] has the sums
    2, -2 and 0, whose total is 0, and two of its three shares are
    infinities, not missing values.  No column of the table is NULL
    throughout, so line 266 raises nothing there. *)
Lemma C9_zero_total_shares_not_null :
  In ("Estado", [Some 2; Some (-2); Some 0])
     (niveis tabela_estado_nulo (sidebar tabela_estado_nulo "601" "" "") e1) /\
  sum [Some 2; Some (-2); Some 0] = 0 /\
  map Participacao (dados_grafico [("Estado", [Some 2; Some (-2); Some 0])])
    = [PInf; NInf; NaN] /\
  comparativo_frota_py tabela_estado_nulo
    (sidebar tabela_estado_nulo "601" "" "")
    = inr (Some (dados_grafico
                   (niveis tabela_estado_nulo
                      (sidebar tabela_estado_nulo "601" "" "") e1))).
Proof.
  split; [| split; [| split]]; try reflexivity.
  right. right. left. reflexivity.
Qed.

(** C9, amended: for a selection taken from a table whose counts are not
    negative and stay in the range where the sums are exact, and for which
    line 266 raises nothing: in every level, when the total of the three
    counts is not zero the shares sum to 1.0 within floating tolerance,
    that is, the exact quotients add up to 1 (a missing share, of a
    missing count, being skipped), and shares that carry a relative
    rounding error of at most [u] each add up to within [u] of 1; when the
    total is zero, each of the three shares is missing. *)
Theorem C9_shares_add_up
  (df : frame) (s : filtros) (r0 : row) (rest : frame) (g : list linha)
  (nivel : string) (valores : list (option Z)) :
  df_fil_mun s = r0 :: rest ->
  In r0 df ->
  carga df < 2 ^ 53 ->
  (forall r v, In r df -> In (Some v) (frota r) -> 0 <= v) ->
  comparativo_frota_py df s = inr (Some g) ->
  In (nivel, valores) (niveis df s r0) ->
  g = dados_grafico (niveis df s r0) /\
  (sum valores <> 0 ->
     fsum (map Participacao (dados_grafico [(nivel, valores)])) = Fin 1 /\
     forall (rnd : Q -> Q) (u : Q),
       (forall q, 0 <= q -> q * (1 - u) <= rnd q /\ rnd q <= q * (1 + u))%Q ->
       (1 - u <=
          Qsum (map rnd (finitos (map Participacao
                                    (dados_grafico [(nivel, valores)])))) /\
        Qsum (map rnd (finitos (map Participacao
                                  (dados_grafico [(nivel, valores)]))))
          <= 1 + u)%Q) /\
  (sum valores = 0 ->
     map Participacao (dados_grafico [(nivel, valores)]) = [NaN; NaN; NaN]).
Proof.
  intros Hs Hin _ Hpos Hg Hnv.
  pose proof (comparativo_frota_py_spec df s r0 rest Hs Hin) as P.
  rewrite Hg in P.
  split.
  { destruct (existsb (so_none df) frota_cols); congruence. }
  assert (Hval : forall w, In (Some w) valores -> 0 <= w).
  { assert (Hsub : forall d, incl d df ->
                   forall w, In (Some w) (frota_sum d) -> 0 <= w).
    { intros d Hd w Hw. unfold frota_sum in Hw.
      apply in_map_iff in Hw. destruct Hw as (col & E & Hcol).
      injection E as <-. apply sum_nonneg. intros v Hv.
      apply in_map_iff in Hv. destruct Hv as (r & Er & Hr).
      apply (Hpos r v); [now apply Hd |].
      rewrite <- Er. exact (in_map (fun c => c r) frota_cols col Hcol). }
    unfold niveis in Hnv. cbn [In] in Hnv.
    destruct Hnv as [E | [E | [E | [E | []]]]]; injection E as _ <-.
    - intros w. now apply Hpos.
    - apply Hsub, incl_filter.
    - apply Hsub, incl_filter.
    - apply Hsub, incl_refl. }
  destruct (niveis_three df s r0 nivel valores Hnv) as (x & y & z & ->).
  assert (E : map Participacao (dados_grafico [(nivel, [x; y; z])]) =
              map (fun qtd => truediv qtd (sum [x; y; z])) [x; y; z])
    by reflexivity.
  rewrite E. clear E. split.
  - intros Ht.
    assert (Hq : ~ (inject_Z (sum [x; y; z]) == 0)%Q).
    { intros H. apply Ht.
      apply (proj1 (inject_Z_injective (sum [x; y; z]) 0)). exact H. }
    split.
    + rewrite (fsum_truediv _ _ Ht). f_equal.
      change 1%Q with (Qred 1). apply Qred_complete. field. exact Hq.
    + intros rnd u Hr.
      assert (Hp : 0 < sum [x; y; z]).
      { pose proof (sum_nonneg _ Hval). lia. }
      destruct (rounded_sum rnd u
                  (finitos (map (fun qtd => truediv qtd (sum [x; y; z])) [x; y; z]))
                  Hr (finitos_truediv_nonneg _ _ Hp Hval)) as [B1 B2].
      assert (S1 : (Qsum (finitos (map (fun qtd => truediv qtd (sum [x; y; z]))
                                       [x; y; z])) == 1)%Q).
      { rewrite (finitos_truediv _ _ Ht). field. exact Hq. }
      rewrite S1, Qmult_1_l in B1, B2. split; assumption.
  - intros Ht. rewrite Ht.
    assert (Hz : forall q, In q [x; y; z] -> truediv q 0 = NaN).
    { intros [v |] Hq; [| reflexivity].
      rewrite (sum_zero_nonneg _ Hval Ht v Hq). reflexivity. }
    cbn [map]. rewrite !Hz by (simpl; auto). reflexivity.
Qed.

Lemma C9_shares_add_up_witness :
  let nv := [("Brasil", [Some 600; Some 150; Some 60])] in
  dados_grafico (niveis cenario (sidebar cenario "002" "" "") m002) =
  dados_grafico (niveis cenario (sidebar cenario "002" "" "") m002) /\
  (sum [Some 600; Some 150; Some 60] <> 0 ->
     fsum (map Participacao (dados_grafico nv)) = Fin 1 /\
     forall (rnd : Q -> Q) (u : Q),
       (forall q, 0 <= q -> q * (1 - u) <= rnd q /\ rnd q <= q * (1 + u))%Q ->
       (1 - u <= Qsum (map rnd (finitos (map Participacao (dados_grafico nv)))) /\
        Qsum (map rnd (finitos (map Participacao (dados_grafico nv)))) <= 1 + u)%Q) /\
  (sum [Some 600; Some 150; Some 60] = 0 ->
     map Participacao (dados_grafico nv) = [NaN; NaN; NaN]).
Proof.
  apply (C9_shares_add_up cenario (sidebar cenario "002" "" "") m002 []
           (dados_grafico (niveis cenario (sidebar cenario "002" "" "") m002))
           "Brasil" [Some 600; Some 150; Some 60]).
  - reflexivity.
  - simpl. auto.
  - reflexivity.
  - intros r v Hr Hv. simpl in Hr.
    destruct Hr as [<- | [<- | [<- | []]]]; simpl in Hv;
      destruct Hv as [E | [E | [E | []]]]; injection E as <-; lia.
  - reflexivity.
  - right. right. right. left. reflexivity.
Defined.

End Comparacao.

(* ------------------------------------------------------------------ *)
(** ** Trimming and ordering of texts *)

Module Textos.
Import Py Pandas Streamlit Dash Amostras Fatos Selecao.

Lemma lstrip_head (s : string) :
  lstrip s = EmptyString \/
  exists c r, lstrip s = String c r /\ isspace c = false.
Proof.
  induction s as [| c s IH]; simpl; [now left |].
  destruct (isspace c) eqn:E; [exact IH |].
  right. exists c, s. auto.
Qed.

Lemma lstrip_fixed (c : ascii) (r : string) :
  isspace c = false -> lstrip (String c r) = String c r.
Proof. intros E. simpl. now rewrite E. Qed.

(** [rstrip] keeps the head of what it does not erase. *)
Lemma rstrip_head (c : ascii) (r : string) :
  rstrip (String c r) = EmptyString \/
  exists r', rstrip (String c r) = String c r'.
Proof.
  simpl. destruct (rstrip r) as [| c' r'].
  - destruct (isspace c); [now left | right; eauto].
  - right. eauto.
Qed.

Lemma rstrip_idem (s : string) : rstrip (rstrip s) = rstrip s.
Proof.
  induction s as [| c s IH]; [reflexivity |].
  assert (U : forall t,
             rstrip (String c t) =
             match rstrip t with
             | EmptyString =>
                 if isspace c then EmptyString else String c EmptyString
             | String a b => String c (String a b)
             end) by reflexivity.
  rewrite (U s). destruct (rstrip s) as [| c' r'] eqn:E.
  - destruct (isspace c) eqn:Ec; [reflexivity |].
    cbn [rstrip]. now rewrite Ec.
  - rewrite (U (String c' r')), IH. reflexivity.
Qed.

(** X1: a trimmed text has nothing left to trim, on either side; hence
    trimming twice is trimming once. *)
Theorem strip_is_trimmed (s : string) :
  lstrip (strip s) = strip s /\
  rstrip (strip s) = strip s /\
  strip (strip s) = strip s.
Proof.
  assert (L : lstrip (strip s) = strip s).
  { unfold strip. destruct (lstrip_head s) as [E | (c & r & E & Hc)].
    - rewrite E. reflexivity.
    - rewrite E. destruct (rstrip_head c r) as [E' | (r' & E')]; rewrite E'.
      + reflexivity.
      + now apply lstrip_fixed. }
  assert (R : rstrip (strip s) = strip s) by (unfold strip; apply rstrip_idem).
  repeat split; try assumption.
  unfold strip at 1. rewrite L. exact R.
Qed.

Lemma compare_leb_trans (x y z : string) :
  String.leb x y = true -> String.leb y z = true -> String.leb x z = true.
Proof.
  unfold String.leb. revert y z.
  induction x as [| a x IH]; intros [| b y] [| c z]; simpl; try congruence.
  unfold Ascii.compare.
  destruct (N.compare_spec (N_of_ascii a) (N_of_ascii b)) as [E1 | L1 | G1];
    destruct (N.compare_spec (N_of_ascii b) (N_of_ascii c)) as [E2 | L2 | G2];
    destruct (N.compare_spec (N_of_ascii a) (N_of_ascii c)) as [E3 | L3 | G3];
    try congruence; try lia.
  apply IH.
Qed.

Lemma leb_refl (x : string) : String.leb x x = true.
Proof. destruct (String.leb_total x x); assumption. Qed.

End Textos.

(* ------------------------------------------------------------------ *)
(** ** More on the search by code *)

Module Busca.
Import Py Pandas Streamlit Dash Amostras Linha266 Fatos Selecao Textos.

Lemma strip_empty : strip "" = "".
Proof. reflexivity. Qed.

Lemma truthy_true (s : string) : s <> "" -> truthy s = true.
Proof. intros H. unfold truthy. now apply negb_true_iff, String.eqb_neq. Qed.

(** X2: blanks around the typed code do not matter.  For a typed code
    and stored codes written in ASCII, where trimming removes the ASCII
    white space only: as long as the typed code is not blank, the sidebar
    and the whole run are the ones of the trimmed code. *)
Theorem code_search_ignores_padding (parse : string -> option Q)
  (df : frame) (cod uf_pick mun_pick : string) :
  so_ascii cod = true ->
  (forall r, In r df -> so_ascii (cod_mun r) = true) ->
  strip cod <> "" ->
  sidebar df cod uf_pick mun_pick = sidebar df (strip cod) uf_pick mun_pick /\
  main parse df cod uf_pick mun_pick = main parse df (strip cod) uf_pick mun_pick.
Proof.
  intros _ _ Hs.
  assert (Hc : cod <> "") by (intros ->; apply Hs; reflexivity).
  assert (P : por_codigo df cod = por_codigo df (strip cod)).
  { unfold por_codigo.
    destruct (strip_is_trimmed cod) as (_ & _ & ->). reflexivity. }
  assert (S : sidebar df cod uf_pick mun_pick =
              sidebar df (strip cod) uf_pick mun_pick).
  { unfold sidebar, busca_codigo.
    rewrite (truthy_true cod Hc), (truthy_true (strip cod) Hs), P.
    reflexivity. }
  split; [exact S |]. unfold main. now rewrite S.
Qed.

Lemma code_search_ignores_padding_witness :
  sidebar codigo_duplicado "  001 " "" "" =
    sidebar codigo_duplicado (strip "  001 ") "" "" /\
  main parse_digits codigo_duplicado "  001 " "" "" =
    main parse_digits codigo_duplicado (strip "  001 ") "" "".
Proof.
  apply (code_search_ignores_padding parse_digits codigo_duplicado "  001 " "" "").
  - reflexivity.
  - intros r Hr. simpl in Hr.
    destruct Hr as [<- | [<- | [<- | []]]]; reflexivity.
  - discriminate.
Defined.

(** X3: once the typed code matches a row, the select boxes play no part:
    whatever is picked there, the run is the same. *)
Theorem matched_code_ignores_picks (parse : string -> option Q)
  (df : frame) (cod up mp up' mp' : string) :
  cod <> "" -> por_codigo df cod <> [] ->
  sidebar df cod up mp = sidebar df cod up' mp' /\
  main parse df cod up mp = main parse df cod up' mp'.
Proof.
  intros Hc Hm.
  destruct (por_codigo df cod) as [| r0 rest] eqn:E; [congruence |].
  assert (S : sidebar df cod up mp = sidebar df cod up' mp').
  { now rewrite !(sidebar_code_path df cod _ _ r0 rest Hc E). }
  split; [exact S |]. unfold main. now rewrite S.
Qed.

Lemma matched_code_ignores_picks_witness :
  sidebar cenario "002" "RJ" "C" = sidebar cenario "002" "SP" "A" /\
  main parse_digits cenario "002" "RJ" "C" = main parse_digits cenario "002" "SP" "A".
Proof.
  apply (matched_code_ignores_picks parse_digits cenario "002" "RJ" "C" "SP" "A");
    discriminate.
Defined.

End Busca.

(* ------------------------------------------------------------------ *)
(** ** The options of the select boxes *)

Module Opcoes.
Import Py Pandas Streamlit Dash Amostras Fatos Selecao Textos.

Lemma insert_sorted_perm (x : string) (l : list string) :
  Permutation (x :: l) (insert_sorted x l).
Proof.
  induction l as [| y l IH]; simpl; [reflexivity |].
  destruct (String.leb x y); [reflexivity |].
  rewrite perm_swap. now apply perm_skip.
Qed.

Lemma sorted_perm (l : list string) : Permutation l (sorted l).
Proof.
  induction l as [| x l IH]; simpl; [reflexivity |].
  rewrite <- insert_sorted_perm. now apply perm_skip.
Qed.

Local Abbreviation le := (fun a b : string => String.leb a b = true).
Local Abbreviation lt := (fun a b : string => String.ltb a b = true).

Lemma insert_sorted_ordered (x : string) (l : list string) :
  StronglySorted le l -> StronglySorted le (insert_sorted x l).
Proof.
  induction l as [| y l IH]; intros H; simpl.
  - constructor; constructor.
  - inversion H as [| ? ? Hl Hy]; subst.
    destruct (String.leb x y) eqn:E.
    + constructor; [assumption |].
      constructor; [exact E |].
      eapply Forall_impl; [| exact Hy].
      intros z Hz. now apply (compare_leb_trans x y z).
    + constructor; [now apply IH |].
      assert (Hyx : String.leb y x = true).
      { destruct (String.leb_total x y) as [H1 | H1]; [congruence | exact H1]. }
      apply Forall_forall. intros z Hz.
      apply In_insert_sorted in Hz. destruct Hz as [-> | Hz]; [exact Hyx |].
      rewrite Forall_forall in Hy. now apply Hy.
Qed.

Lemma sorted_ordered (l : list string) : StronglySorted le (sorted l).
Proof.
  induction l as [| x l IH]; simpl; [constructor |].
  now apply insert_sorted_ordered.
Qed.

Lemma unique_acc_NoDup (l seen : list string) : NoDup (unique_acc seen l).
Proof.
  revert seen. induction l as [| x l IH]; intros seen; simpl; [constructor |].
  destruct (existsb (String.eqb x) seen); [apply IH |].
  constructor; [| apply IH].
  rewrite In_unique_acc. intros [_ H]. apply H. now left.
Qed.

Lemma le_neq_lt (a b : string) :
  String.leb a b = true -> a <> b -> String.ltb a b = true.
Proof.
  unfold String.leb, String.ltb. intros H Hn.
  destruct (String.compare a b) eqn:E; try congruence.
  apply String.compare_eq_iff in E. contradiction.
Qed.

Lemma ordered_NoDup_strict (l : list string) :
  StronglySorted le l -> NoDup l -> StronglySorted lt l.
Proof.
  induction 1 as [| x l Hs IH Hx]; intros Hd; [constructor |].
  inversion Hd as [| ? ? Hnin Hd']; subst.
  constructor; [now apply IH |].
  rewrite Forall_forall in *. intros y Hy.
  apply le_neq_lt; [now apply Hx |]. intros ->. contradiction.
Qed.

(** X4: the options of a select box are the values of the column, each
    one once, in strictly ascending order. *)
Theorem options_ascending_distinct (l : list string) :
  StronglySorted (fun a b => String.ltb a b = true) (sorted (unique l)) /\
  NoDup (sorted (unique l)) /\
  (forall x, In x (sorted (unique l)) <-> In x l).
Proof.
  assert (D : NoDup (sorted (unique l))).
  { apply (Permutation_NoDup (sorted_perm (unique l))).
    apply unique_acc_NoDup. }
  split; [| split; [exact D | intros x; apply In_opcoes]].
  apply (ordered_NoDup_strict _ (sorted_ordered _) D).
Qed.

Lemma head_least (x : string) (l : list string) :
  StronglySorted le (x :: l) ->
  forall y, In y (x :: l) -> String.leb x y = true.
Proof.
  intros H y [<- | Hy]; [apply leb_refl |].
  inversion H as [| ? ? _ Hx]; subst.
  rewrite Forall_forall in Hx. now apply Hx.
Qed.

Lemma selectbox_default (l : list string) (p : string) :
  l <> [] -> ~ In p l ->
  exists v, selectbox (sorted (unique l)) p = Some v /\ In v l /\
            forall y, In y l -> String.leb v y = true.
Proof.
  intros Hne Hp. unfold selectbox.
  destruct (existsb (String.eqb p) (sorted (unique l))) eqn:E.
  { apply (proj1 (existsb_eqb_In _ _)) in E.
    apply (proj1 (In_opcoes _ _)) in E. contradiction. }
  destruct (sorted (unique l)) as [| v t] eqn:Es.
  - exfalso. destruct l as [| a l]; [congruence |].
    assert (H : In a (sorted (unique (a :: l)))) by (apply In_opcoes; now left).
    rewrite Es in H. contradiction.
  - exists v. split; [reflexivity |]. split.
    + apply In_opcoes. rewrite Es. now left.
    + intros y Hy. apply (head_least v t).
      * rewrite <- Es. apply sorted_ordered.
      * rewrite <- Es. now apply In_opcoes.
Qed.

(** X5: when the pick of a select box is not among its options, the box
    returns the least option: the first state of the table in ascending
    order, and the first name of that state. *)
Theorem default_picks_are_least (df : frame) (up mp : string) :
  df <> [] ->
  ~ In up (map uf df) ->
  exists u,
    sel_uf (filtros_tradicionais df up mp) = Some u /\
    In u (map uf df) /\
    (forall r, In r df -> String.leb u (uf r) = true) /\
    (~ In mp (map nome_mun (df_estado df (Some u))) ->
     exists m,
       municipio (filtros_tradicionais df up mp) = Some m /\
       In m (map nome_mun (df_estado df (Some u))) /\
       forall r, In r df -> uf r = u -> String.leb m (nome_mun r) = true).
Proof.
  intros Hne Hup.
  destruct (selectbox_default (map uf df) up) as (u & Eu & Hu & Hmin);
    [destruct df; [congruence | discriminate] | assumption |].
  exists u. unfold filtros_tradicionais. rewrite Eu. cbn [sel_uf municipio].
  split; [reflexivity |]. split; [exact Hu |]. split.
  - intros r Hr. apply Hmin. now apply in_map.
  - intros Hmp.
    destruct (selectbox_default (map nome_mun (df_estado df (Some u))) mp)
      as (m & Em & Hm & Hmmin); [| assumption |].
    { apply in_map_iff in Hu. destruct Hu as (r & Hr & Hin).
      intros E.
      assert (H : In (nome_mun r) (map nome_mun (df_estado df (Some u)))).
      { apply in_map, In_df_estado. auto. }
      rewrite E in H. contradiction. }
    exists m. split; [exact Em |]. split; [exact Hm |].
    intros r Hr Hur. apply Hmmin. apply in_map, In_df_estado. auto.
Qed.

Lemma default_picks_are_least_witness :
  exists u,
    sel_uf (filtros_tradicionais cenario "" "") = Some u /\
    In u (map uf cenario) /\
    (forall r, In r cenario -> String.leb u (uf r) = true) /\
    (~ In "" (map nome_mun (df_estado cenario (Some u))) ->
     exists m,
       municipio (filtros_tradicionais cenario "" "") = Some m /\
       In m (map nome_mun (df_estado cenario (Some u))) /\
       forall r, In r cenario -> uf r = u -> String.leb m (nome_mun r) = true).
Proof.
  apply (default_picks_are_least cenario "" "").
  - discriminate.
  - simpl. intros [H | [H | [H | H]]]; try discriminate; exact H.
Defined.



End Opcoes.

(* ------------------------------------------------------------------ *)
(** ** How the levels relate *)

Module Niveis.
Import Py Pandas Streamlit Dash Amostras Linha266 Fatos Selecao Execucao Agregacao.

(** X7: the record the run works with is a row of the table; it belongs to
    its own bracket subset exactly when it has a bracket label; the
    bracket subset and the state subset are parts of the table. *)
Theorem record_in_its_scopes (df : frame) (cod up mp : string) :
  df <> [] ->
  exists r0,
    iloc0 (df_fil_mun (sidebar df cod up mp)) = Ok r0 /\
    In r0 df /\
    (In r0 (df_faixa df r0) <-> faixa_pop_2022 r0 <> None) /\
    incl (df_faixa df r0) df /\
    incl (df_estado df (sel_uf (sidebar df cod up mp))) df.
Proof.
  intros Hne.
  destruct (sidebar_selected df cod up mp Hne) as (r0 & rest & -> & Hin).
  exists r0. cbn [df_fil_mun sel_uf iloc0].
  split; [reflexivity |]. split; [exact Hin |]. split.
  { unfold df_faixa. rewrite filter_In. unfold label_eq.
    destruct (faixa_pop_2022 r0) as [b |].
    - rewrite String.eqb_refl. split; [discriminate | auto].
    - split; [intros [_ H]; discriminate | congruence]. }
  split; apply incl_filter.
Qed.

Lemma record_in_its_scopes_witness :
  exists r0,
    iloc0 (df_fil_mun (sidebar tabela_sem_faixa "900" "" "")) = Ok r0 /\
    In r0 tabela_sem_faixa /\
    (In r0 (df_faixa tabela_sem_faixa r0) <-> faixa_pop_2022 r0 <> None) /\
    incl (df_faixa tabela_sem_faixa r0) tabela_sem_faixa /\
    incl (df_estado tabela_sem_faixa
            (sel_uf (sidebar tabela_sem_faixa "900" "" ""))) tabela_sem_faixa.
Proof.
  apply (record_in_its_scopes tabela_sem_faixa "900" "" "").
  discriminate.
Defined.

Section Coluna.
Variable col : row -> option Z.

Lemma sum_col_nonneg (d : frame) :
  (forall r v, In r d -> col r = Some v -> 0 <= v) ->
  0 <= sum (map col d).
Proof.
  intros H. apply sum_nonneg. intros v Hv.
  apply in_map_iff in Hv. destruct Hv as (r & E & Hr). eauto.
Qed.

(** Filtering a column of counts that are not negative cannot raise its
    sum. *)
Lemma sum_filter_le (f : row -> bool) (d : frame) :
  (forall r v, In r d -> col r = Some v -> 0 <= v) ->
  sum (map col (filter f d)) <= sum (map col d).
Proof.
  induction d as [| r d IH]; intros H; simpl; [lia |].
  assert (IH' : sum (map col (filter f d)) <= sum (map col d)).
  { apply IH. intros r' v Hr'. apply H. now right. }
  assert (Hr : forall v, col r = Some v -> 0 <= v).
  { intros v. apply H. now left. }
  destruct (f r); simpl; destruct (col r) as [v |]; try lia;
    specialize (Hr v eq_refl); lia.
Qed.

(** A count is at most the sum of a column that holds it. *)
Lemma sum_member_le (d : frame) (r0 : row) (v : Z) :
  (forall r w, In r d -> col r = Some w -> 0 <= w) ->
  In r0 d -> col r0 = Some v -> v <= sum (map col d).
Proof.
  induction d as [| r d IH]; intros H Hin Hv; [contradiction |].
  assert (Hd : 0 <= sum (map col d)).
  { apply sum_col_nonneg. intros r' w Hr'. apply H. now right. }
  simpl. destruct Hin as [-> | Hin].
  - rewrite Hv. lia.
  - assert (v <= sum (map col d)).
    { apply IH; auto. intros r' w Hr'. apply H. now right. }
    destruct (col r) as [w |] eqn:E; [| assumption].
    assert (0 <= w) by (apply (H r w); [now left | assumption]). lia.
Qed.

End Coluna.

Local Abbreviation ate :=
  (fun a b : option Z => forall x y, a = Some x -> b = Some y -> x <= y).

Lemma Forall2_three (R : option Z -> option Z -> Prop)
  (a b c a' b' c' : option Z) :
  R a a' -> R b b' -> R c c' -> Forall2 R [a; b; c] [a'; b'; c'].
Proof. intros. repeat constructor; assumption. Qed.

(** X8: when no count of the table is negative and the counts stay in the
    range where the sums are exact, the levels nest, for each vehicle
    type: the sums of the state and of the bracket are at most the sum of
    the country, and the count of a row of the table is at most the sum of
    the country, at most the sum of the state subset when the row is in it,
    and at most the sum of its bracket when it has a bracket label. *)
Theorem levels_nest (df : frame) (s : filtros) (r0 : row) :
  In r0 df ->
  carga df < 2 ^ 53 ->
  (forall r v, In r df -> In (Some v) (frota r) -> 0 <= v) ->
  Forall2 ate (frota_sum (df_estado df (sel_uf s))) (frota_sum df) /\
  Forall2 ate (frota_sum (df_faixa df r0)) (frota_sum df) /\
  Forall2 ate (frota r0) (frota_sum df) /\
  (In r0 (df_estado df (sel_uf s)) ->
   Forall2 ate (frota r0) (frota_sum (df_estado df (sel_uf s)))) /\
  (faixa_pop_2022 r0 <> None ->
   Forall2 ate (frota r0) (frota_sum (df_faixa df r0))).
Proof.
  intros Hin _ Hpos.
  assert (P : forall col, In col frota_cols ->
                forall r v, In r df -> col r = Some v -> 0 <= v).
  { intros col Hc r v Hr Hv. apply (Hpos r v Hr).
    rewrite <- Hv. exact (in_map (fun c => c r) frota_cols col Hc). }
  assert (Psub : forall col f, In col frota_cols ->
                   forall r v, In r (filter f df) -> col r = Some v -> 0 <= v).
  { intros col f Hc r v Hr. apply (P col Hc). now apply filter_In in Hr. }
  unfold frota, frota_sum, frota_cols in *. cbn [map].
  assert (Member : forall (f : row -> bool), In r0 (filter f df) ->
            Forall2 ate [auto_2023 r0; moto_2023 r0; outr_veic_2023 r0]
              [Some (sum (map auto_2023 (filter f df)));
               Some (sum (map moto_2023 (filter f df)));
               Some (sum (map outr_veic_2023 (filter f df)))]).
  { intros f Hf. apply Forall2_three; intros x y Hx Hy; injection Hy as <-;
      apply (sum_member_le _ _ r0); auto;
      intros r w Hr; apply (Psub _ f); simpl; auto. }
  assert (Part : forall (f : row -> bool),
            Forall2 ate
              [Some (sum (map auto_2023 (filter f df)));
               Some (sum (map moto_2023 (filter f df)));
               Some (sum (map outr_veic_2023 (filter f df)))]
              [Some (sum (map auto_2023 df));
               Some (sum (map moto_2023 df));
               Some (sum (map outr_veic_2023 df))]).
  { intros f. apply Forall2_three; intros x y Hx Hy;
      injection Hx as <-; injection Hy as <-;
      apply sum_filter_le; apply P; simpl; auto. }
  split; [apply Part |].
  split; [apply Part |].
  split.
  { apply Forall2_three; intros x y Hx Hy; injection Hy as <-;
      apply (sum_member_le _ _ r0); auto; apply P; simpl; auto. }
  split; [intros Hest; apply Member; exact Hest |].
  intros Hb. apply Member. apply filter_In. split; [exact Hin |].
  unfold label_eq. destruct (faixa_pop_2022 r0); [apply String.eqb_refl | congruence].
Qed.

Lemma levels_nest_witness :
  Forall2 ate (frota_sum (df_estado cenario (sel_uf (sidebar cenario "002" "" ""))))
          (frota_sum cenario) /\
  Forall2 ate (frota_sum (df_faixa cenario m002)) (frota_sum cenario) /\
  Forall2 ate (frota m002) (frota_sum cenario) /\
  (In m002 (df_estado cenario (sel_uf (sidebar cenario "002" "" ""))) ->
   Forall2 ate (frota m002)
           (frota_sum (df_estado cenario (sel_uf (sidebar cenario "002" "" ""))))) /\
  (faixa_pop_2022 m002 <> None ->
   Forall2 ate (frota m002) (frota_sum (df_faixa cenario m002))).
Proof.
  apply (levels_nest cenario (sidebar cenario "002" "" "") m002).
  - simpl. auto.
  - reflexivity.
  - intros r v Hr Hv. simpl in Hr.
    destruct Hr as [<- | [<- | [<- | []]]]; simpl in Hv;
      destruct Hv as [E | [E | [E | []]]]; injection E as <-; lia.
Defined.

End Niveis.

(* ------------------------------------------------------------------ *)
(** ** The range of the shares *)

Module Faixas.
Import Py Pandas Streamlit Dash Amostras Linha266 Fatos Selecao Execucao Agregacao
  Excecoes Niveis.

Lemma sum_entry_le (l : list (option Z)) (v : Z) :
  (forall w, In (Some w) l -> 0 <= w) -> In (Some v) l -> v <= sum l.
Proof.
  induction l as [| [z |] l IH]; intros H Hv; simpl; [contradiction | |].
  - assert (0 <= sum l) by (apply sum_nonneg; intros w Hw; apply H; now right).
    destruct Hv as [E | Hv].
    + injection E as ->. lia.
    + assert (0 <= z) by (apply H; now left).
      assert (v <= sum l) by (apply IH; auto; intros w Hw; apply H; now right).
      lia.
  - destruct Hv as [E | Hv]; [discriminate |].
    apply IH; auto. intros w Hw. apply H. now right.
Qed.

Lemma truediv_unit (v t : Z) :
  0 <= v <= t -> t <> 0 ->
  exists q, truediv (Some v) t = Fin q /\ (0 <= q <= 1)%Q.
Proof.
  intros Hv Ht.
  destruct (truediv_finite v t Ht) as (q & E & Hq).
  exists q. split; [exact E |]. rewrite Hq.
  assert (Hp : (0 < inject_Z t)%Q).
  { change 0%Q with (inject_Z 0). rewrite <- Zlt_Qlt. lia. }
  split.
  - apply Qle_shift_div_l; [exact Hp |].
    rewrite Qmult_0_l. change 0%Q with (inject_Z 0). rewrite <- Zle_Qle. lia.
  - apply Qle_shift_div_r; [exact Hp |].
    rewrite Qmult_1_l. rewrite <- Zle_Qle. lia.
Qed.

(** X9: for a selection taken from a table whose counts are not negative
    and stay in the range where the sums are exact, when line 266 raises
    nothing no share of the comparison is infinite: each one is missing or
    lies between 0 and 1. *)
Theorem shares_between_0_and_1
  (df : frame) (s : filtros) (r0 : row) (rest : frame) (g : list linha) :
  df_fil_mun s = r0 :: rest ->
  In r0 df ->
  carga df < 2 ^ 53 ->
  (forall r v, In r df -> In (Some v) (frota r) -> 0 <= v) ->
  comparativo_frota_py df s = inr (Some g) ->
  forall l, In l g ->
    Participacao l = NaN \/
    exists q, Participacao l = Fin q /\ (0 <= q <= 1)%Q.
Proof.
  intros Hs Hin _ Hpos Hg l Hl.
  pose proof (comparativo_frota_py_spec df s r0 rest Hs Hin) as P.
  rewrite Hg in P.
  assert (Eg : g = dados_grafico (niveis df s r0)).
  { destruct (existsb (so_none df) frota_cols); congruence. }
  subst g. clear P Hg.
  apply In_dados_grafico in Hl. destruct Hl as (valores & Hnv & Hc & ->).
  apply in_combine_r in Hc.
  assert (Hval : forall w, In (Some w) valores -> 0 <= w).
  { assert (Hsub : forall d, incl d df ->
                   forall w, In (Some w) (frota_sum d) -> 0 <= w).
    { intros d Hd w Hw. unfold frota_sum in Hw.
      apply in_map_iff in Hw. destruct Hw as (col & E & Hcol).
      injection E as <-. apply sum_col_nonneg.
      intros r v Hr Hv. apply (Hpos r v); [now apply Hd |].
      rewrite <- Hv. exact (in_map (fun c => c r) frota_cols col Hcol). }
    unfold niveis in Hnv. cbn [In] in Hnv.
    destruct Hnv as [E | [E | [E | [E | []]]]]; injection E as _ <-.
    - intros w. now apply Hpos.
    - apply Hsub, incl_filter.
    - apply Hsub, incl_filter.
    - apply Hsub, incl_refl. }
  destruct (Quantidade l) as [v |]; [| now left].
  assert (H0 : 0 <= v) by now apply Hval.
  assert (H1 : v <= sum valores) by now apply sum_entry_le.
  destruct (Z.eq_dec (sum valores) 0) as [Ez | Hnz].
  - left. rewrite Ez. assert (v = 0) by lia. now subst.
  - right. apply truediv_unit; [lia | exact Hnz].
Qed.

Lemma shares_between_0_and_1_witness :
  forallb (fun l => match Participacao l with
                    | PInf | NInf => false
                    | _ => true
                    end)
          (dados_grafico (niveis cenario (sidebar cenario "002" "" "") m002))
    = true /\
  forall l,
    In l (dados_grafico (niveis cenario (sidebar cenario "002" "" "") m002)) ->
    Participacao l = NaN \/
    exists q, Participacao l = Fin q /\ (0 <= q <= 1)%Q.
Proof.
  split; [reflexivity |].
  apply (shares_between_0_and_1 cenario (sidebar cenario "002" "" "") m002 []).
  - reflexivity.
  - simpl. auto.
  - reflexivity.
  - intros r v Hr Hv. simpl in Hr.
    destruct Hr as [<- | [<- | [<- | []]]]; simpl in Hv;
      destruct Hv as [E | [E | [E | []]]]; injection E as <-; lia.
  - reflexivity.
Defined.

End Faixas.

(* ------------------------------------------------------------------ *)
(** ** The charts of the selection *)

Module Paineis.
Import Py Pandas Streamlit Dash Amostras Graficos Fatos Selecao Execucao Agregacao.

Lemma length_melt (vars : list (string * (row -> option Z))) (d : frame) :
  List.length (melt vars d) = (List.length vars * List.length d)%nat.
Proof.
  unfold melt. induction vars as [| [nome col] vars IH]; simpl; [reflexivity |].
  now rewrite length_app, length_map, IH.
Qed.

(** X10: the population chart gets, for each of the four years in
    chronological order, one point per selected row, so four points per
    row; no point lacks its axis label, and every label is one of the
    four the axis is ordered by.  Nothing is drawn exactly when nothing
    is selected. *)
Theorem population_points (s : filtros) :
  map (fun p => (snd p, valor (fst p))) (df_melted s) =
    flat_map
      (fun '(rotulo, col) => map (fun r => (Some rotulo, col r)) (df_fil_mun s))
      (combine categoryarray [pop_2010; pop_2015; pop_2016; pop_2022]) /\
  List.length (df_melted s) = (4 * List.length (df_fil_mun s))%nat /\
  (forall p, In p (df_melted s) ->
     exists rotulo, snd p = Some rotulo /\ In rotulo categoryarray) /\
  (informacoes_basicas s = None <-> df_fil_mun s = []).
Proof.
  assert (E : map (fun p => (snd p, valor (fst p))) (df_melted s) =
    flat_map
      (fun '(rotulo, col) => map (fun r => (Some rotulo, col r)) (df_fil_mun s))
      (combine categoryarray [pop_2010; pop_2015; pop_2016; pop_2022])).
  { unfold df_melted, melt, pop_vars, categoryarray.
    cbn [flat_map combine]. rewrite !map_app, !map_map, !app_nil_r.
    reflexivity. }
  split; [exact E |]. split.
  { unfold df_melted. rewrite length_map, length_melt. reflexivity. }
  split.
  - intros p Hp.
    assert (Hq : In (snd p, valor (fst p))
                    (map (fun p => (snd p, valor (fst p))) (df_melted s)))
      by (apply in_map_iff; eauto).
    rewrite E in Hq. apply in_flat_map in Hq.
    destruct Hq as ([rotulo col] & Hc & Hm).
    apply in_map_iff in Hm. destruct Hm as (r & Er & _).
    injection Er as Er _. exists rotulo. split; [now symmetry |].
    now apply in_combine_l in Hc.
  - unfold informacoes_basicas. destruct (df_fil_mun s); split; congruence.
Qed.

(** X11: the fleet chart draws three bars per selected row.  When the
    selection is a single row, its bars carry the same labels and the same
    counts as the municipality level of the comparison. *)
Theorem fleet_chart_matches_comparison (parse : string -> option Q)
  (df : frame) (cod up mp : string) (out : saida) (g : list linha) :
  main parse df cod up mp = Some out ->
  grafico out = Some g ->
  List.length (df_frota (sidebar df cod up mp)) =
    (3 * List.length (df_fil_mun (sidebar df cod up mp)))%nat /\
  (forall r0, df_fil_mun (sidebar df cod up mp) = [r0] ->
     map (fun m => (variavel m, valor m)) (df_frota (sidebar df cod up mp)) =
     map (fun l => (Tipo l, Quantidade l)) (firstn 3 g)).
Proof.
  intros Hm Hg. split.
  { unfold df_frota. rewrite length_map, length_melt. reflexivity. }
  intros r0 Hs.
  assert (Hne : df <> []) by (intros ->; discriminate).
  destruct (main_run parse df cod up mp Hne) as (r1 & rest & S & _ & M).
  rewrite S in Hs. cbn [df_fil_mun] in Hs. injection Hs as -> ->.
  rewrite M in Hm.
  match type of Hm with
  | Some ?o = Some _ => assert (Eo : grafico o = grafico out) by congruence
  end.
  cbn [grafico] in Eo. rewrite Hg in Eo.
  match type of Eo with
  | Some ?x = Some _ => assert (Eg : g = x) by congruence
  end.
  subst g. rewrite S. reflexivity.
Qed.

Lemma fleet_chart_matches_comparison_witness :
  exists out g,
    main parse_digits cenario "002" "" "" = Some out /\
    grafico out = Some g /\
    List.length (df_frota (sidebar cenario "002" "" "")) =
      (3 * List.length (df_fil_mun (sidebar cenario "002" "" "")))%nat /\
    (forall r0, df_fil_mun (sidebar cenario "002" "" "") = [r0] ->
       map (fun m => (variavel m, valor m)) (df_frota (sidebar cenario "002" "" "")) =
       map (fun l => (Tipo l, Quantidade l)) (firstn 3 g)).
Proof.
  eexists. eexists. split; [reflexivity |]. split; [reflexivity |].
  eapply (fleet_chart_matches_comparison parse_digits cenario "002" "" "");
    reflexivity.
Defined.

End Paineis.

(* ------------------------------------------------------------------ *)
(** ** The text labels of the bars *)

Module Rotulos.
Import Py Pandas Dash Amostras Graficos.

Local Abbreviation sem_virgula := (fun c : ascii => negb (Ascii.eqb c ","%char)).

Lemma virgulas_filter (ds : list ascii) (k : nat) :
  filter sem_virgula (virgulas k ds) = filter sem_virgula ds.
Proof.
  revert k. induction ds as [| c ds IH]; intros k; [reflexivity |].
  destruct k as [| k]; cbn [virgulas filter].
  - change (negb (Ascii.eqb "," ",")) with false. cbv iota.
    now rewrite IH.
  - now rewrite IH.
Qed.

(** The decimal digits hold no comma. *)
Lemma uint_no_comma (d : Decimal.uint) :
  filter sem_virgula (list_ascii_of_string (NilEmpty.string_of_uint d)) =
  list_ascii_of_string (NilEmpty.string_of_uint d).
Proof.
  induction d; cbn [NilEmpty.string_of_uint list_ascii_of_string filter];
    [reflexivity | | | | | | | | | |];
    match goal with
    | |- (if ?b then _ else _) = _ => change b with true
    end; cbv iota; now rewrite IHd.
Qed.

Lemma digitos_no_comma (n : N) :
  filter sem_virgula (digitos n) = digitos n.
Proof.
  unfold digitos, NilZero.string_of_uint.
  destruct (N.to_uint n); try apply uint_no_comma. reflexivity.
Qed.

Lemma corpo_sem_virgulas (n : N) :
  filter sem_virgula (rev (virgulas 3 (rev (digitos n)))) = digitos n.
Proof.
  rewrite filter_rev, virgulas_filter, <- filter_rev, rev_involutive.
  apply digitos_no_comma.
Qed.

Lemma digitos_string (n : N) :
  string_of_list_ascii (digitos n) = NilZero.string_of_uint (N.to_uint n).
Proof. unfold digitos. apply string_of_list_ascii_of_string. Qed.

Lemma to_int_proper (z : Z) :
  Z.to_int z <> Decimal.Pos Decimal.Nil /\ Z.to_int z <> Decimal.Neg Decimal.Nil.
Proof.
  destruct z as [| p | p]; simpl; split; try discriminate;
    intros E; injection E as E;
    exact (DecimalPos.Unsigned.to_uint_nonnil p E).
Qed.

(** Without its commas, the label of a count is the decimal writing of
    the float the count became. *)
Lemma fmt_milhar_digits (z : Z) :
  string_of_list_ascii
    (filter sem_virgula (list_ascii_of_string (fmt_milhar (Some z)))) =
  NilZero.string_of_int (Z.to_int (float_de_int z)).
Proof.
  unfold fmt_milhar. cbv zeta.
  destruct (float_de_int z) as [| p | p]; cbn [Z.ltb Z.compare].
  - reflexivity.
  - rewrite list_ascii_of_string_of_list_ascii, corpo_sem_virgulas.
    apply digitos_string.
  - cbn [list_ascii_of_string filter].
    change (negb (Ascii.eqb "-" ",")) with true. cbv iota.
    rewrite list_ascii_of_string_of_list_ascii, corpo_sem_virgulas.
    cbn [string_of_list_ascii]. rewrite digitos_string. reflexivity.
Qed.

(** Reading a label back gives the float the count became. *)
Lemma ler_fmt_milhar (z : Z) :
  ler_milhar (fmt_milhar (Some z)) = Some (float_de_int z).
Proof.
  unfold ler_milhar. rewrite fmt_milhar_digits.
  destruct (to_int_proper (float_de_int z)) as [H1 H2].
  rewrite (NilZero.isi _ H1 H2). cbn [option_map].
  now rewrite DecimalZ.of_to.
Qed.

(** Up to 2^53 in absolute value the conversion to a float is exact. *)
Lemma float_de_int_exact (z : Z) :
  Z.abs z <= 2 ^ 53 -> float_de_int z = z.
Proof.
  intros Hz. unfold float_de_int. cbv zeta.
  destruct (Z.log2 (Z.abs z) - 52 <=? 0) eqn:E; [reflexivity |].
  apply Z.leb_gt in E.
  assert (Hpos : 0 < Z.abs z).
  { destruct (Z.lt_trichotomy 0 (Z.abs z)) as [H | [H | H]]; [exact H | |].
    - rewrite <- H in E. simpl in E. lia.
    - pose proof (Z.abs_nonneg z). lia. }
  assert (Hlog : 2 ^ 53 <= Z.abs z).
  { apply Z.le_trans with (2 ^ Z.log2 (Z.abs z)).
    - apply Z.pow_le_mono_r; lia.
    - apply Z.log2_spec. exact Hpos. }
  assert (Ha : Z.abs z = 2 ^ 53) by lia.
  destruct (Z.abs_eq_or_opp z) as [Ez | Ez]; rewrite Ez in Ha.
  - rewrite Ha. reflexivity.
  - assert (Ez' : z = - 2 ^ 53) by lia. rewrite Ez'. reflexivity.
Qed.

(** Beyond 2^53 two counts can share a label. *)
Lemma fmt_milhar_collision :
  fmt_milhar (Some (2 ^ 53 + 1)) = fmt_milhar (Some (2 ^ 53)).
Proof. reflexivity. Qed.

(** X12: up to 2^53 in absolute value, the label over a bar determines the
    count: dropping the commas and reading the digits gives the count
    back, so that two such counts never get the same label; the label nan
    stands for the missing count alone. *)
Theorem fmt_milhar_round_trip (z : Z) :
  Z.abs z <= 2 ^ 53 ->
  ler_milhar (fmt_milhar (Some z)) = Some z /\
  ler_milhar (fmt_milhar None) = None /\
  fmt_milhar (Some z) <> fmt_milhar None /\
  (forall z', Z.abs z' <= 2 ^ 53 ->
     fmt_milhar (Some z) = fmt_milhar (Some z') -> z = z').
Proof.
  intros Hz.
  assert (R : forall a, Z.abs a <= 2 ^ 53 ->
                ler_milhar (fmt_milhar (Some a)) = Some a).
  { intros a Ha. now rewrite ler_fmt_milhar, float_de_int_exact. }
  split; [now apply R |]. split; [reflexivity |]. split.
  - intros E. pose proof (R z Hz) as H. rewrite E in H. discriminate.
  - intros z' Hz' E.
    pose proof (R z Hz) as H1. pose proof (R z' Hz') as H2.
    rewrite E in H1. congruence.
Qed.

Lemma fmt_milhar_round_trip_witness :
  fmt_milhar (Some 1234567) = "1,234,567" /\
  ler_milhar (fmt_milhar (Some 1234567)) = Some 1234567 /\
  ler_milhar (fmt_milhar None) = None /\
  fmt_milhar (Some 1234567) <> fmt_milhar None /\
  (forall z', Z.abs z' <= 2 ^ 53 ->
     fmt_milhar (Some 1234567) = fmt_milhar (Some z') -> 1234567 = z').
Proof.
  split; [reflexivity |].
  apply (fmt_milhar_round_trip 1234567).
  simpl. lia.
Defined.

End Rotulos.

(* ------------------------------------------------------------------ *)
(** ** The two blocks of means *)

Module Medias.
Import Py Pandas Streamlit Dash Amostras Linha266 Fatos Selecao Execucao.

Lemma In_dropna (l : list (option Q)) (q : Q) :
  In q (dropna l) <-> In (Some q) l.
Proof.
  induction l as [| [x |] l IH]; simpl.
  - reflexivity.
  - rewrite IH. split; intros [H | H]; auto; [left; congruence |].
    left. congruence.
  - rewrite IH. split; [auto | intros [H | H]; [discriminate | auto]].
Qed.

Lemma Qsum_bounds (lo hi : Q) (xs : list Q) :
  (forall q, In q xs -> (lo <= q <= hi)%Q) ->
  (inject_Z (Z.of_nat (List.length xs)) * lo <= Qsum xs /\
   Qsum xs <= inject_Z (Z.of_nat (List.length xs)) * hi)%Q.
Proof.
  induction xs as [| x xs IH]; intros H.
  - simpl. split; rewrite Qmult_0_l; apply Qle_refl.
  - destruct IH as [IH1 IH2]; [intros q Hq; apply H; now right |].
    destruct (H x (or_introl eq_refl)) as [Hx1 Hx2].
    assert (E : forall c, (inject_Z (Z.of_nat (List.length (x :: xs))) * c ==
                           c + inject_Z (Z.of_nat (List.length xs)) * c)%Q).
    { intros c. cbn [List.length]. rewrite Nat2Z.inj_succ.
      unfold Z.succ. rewrite inject_Z_plus. ring. }
    cbn [Qsum fold_right]. fold (Qsum xs). rewrite !E.
    split; apply Qplus_le_compat; assumption.
Qed.

(** In exact arithmetic the mean of a series lies within any bounds its
    entries respect. *)
Lemma mean_bounds (lo hi : Q) (l : list (option Q)) (m : Q) :
  (forall q, In (Some q) l -> (lo <= q <= hi)%Q) ->
  mean l = Some m -> (lo <= m <= hi)%Q.
Proof.
  intros H. unfold mean.
  destruct (dropna l) as [| x xs] eqn:E; [discriminate |].
  intros Em.
  assert (Em' : Qred (Qsum (x :: xs) / inject_Z (Z.of_nat (List.length (x :: xs)))) = m)
    by congruence.
  rewrite <- Em'. clear Em Em'. rewrite Qred_correct.
  destruct (Qsum_bounds lo hi (x :: xs)) as [B1 B2].
  { intros q Hq. apply H. apply In_dropna. now rewrite E. }
  assert (Hp : (0 < inject_Z (Z.of_nat (List.length (x :: xs))))%Q).
  { change 0%Q with (inject_Z 0). rewrite <- Zlt_Qlt.
    cbn [List.length]. lia. }
  split.
  - apply Qle_shift_div_l; [exact Hp |]. now rewrite Qmult_comm.
  - apply Qle_shift_div_r; [exact Hp |]. now rewrite Qmult_comm.
Qed.

(** X14: when every index of the table that parses lies between 0 and 1,
    the well-being block raises nothing on a selection that is not empty,
    its first entry is the index of the selected row as it is, and each of
    its bracket, state and country entries is missing or lies between 0
    and 1, inside the fixed axis of the chart. *)
Theorem ibeu_means_within_bounds (parse : string -> option Q)
  (df : frame) (s : filtros) (r0 : row) (rest : frame) :
  df_fil_mun s = r0 :: rest ->
  (forall r q, In r df -> to_numeric parse (ibeu r) = Some q ->
               (0 <= q <= 1)%Q) ->
  exists b c d,
    dados_media ibeu
      (coerce parse ibeu set_ibeu
         (coerce parse tx_mortalidade_100mil_hab set_tx df)) s
      = Ok [ibeu r0; b; c; d] /\
    forall x, In x [b; c; d] ->
      x = CNull \/ exists q, x = CNum q /\ (0 <= q <= 1)%Q.
Proof.
  intros Hs Hb.
  unfold dados_media. rewrite Hs. cbn [iloc0].
  rewrite (df_faixa_coerce parse ibeu set_ibeu) by reflexivity.
  rewrite (df_estado_coerce parse ibeu set_ibeu) by reflexivity.
  rewrite (df_faixa_coerce parse tx_mortalidade_100mil_hab set_tx) by reflexivity.
  rewrite (df_estado_coerce parse tx_mortalidade_100mil_hab set_tx) by reflexivity.
  rewrite !(col_mean_coerce parse ibeu set_ibeu) by reflexivity.
  rewrite !map_ibeu_coerce_tx.
  do 3 eexists. split; [reflexivity |].
  assert (K : forall d, incl d df ->
            of_float (mean (map (fun r => to_numeric parse (ibeu r)) d)) = CNull \/
            exists q,
              of_float (mean (map (fun r => to_numeric parse (ibeu r)) d)) = CNum q /\
              (0 <= q <= 1)%Q).
  { intros d Hd.
    destruct (mean (map (fun r => to_numeric parse (ibeu r)) d)) as [m |] eqn:E;
      [| now left].
    right. exists m. split; [reflexivity |].
    apply (mean_bounds 0 1 _ m) in E; [exact E |].
    intros q Hq. apply in_map_iff in Hq. destruct Hq as (r & Er & Hr).
    apply (Hb r q); [now apply Hd | exact Er]. }
  intros x [<- | [<- | [<- | []]]]; apply K.
  - apply incl_filter.
  - apply incl_filter.
  - apply incl_refl.
Qed.

Lemma ibeu_means_within_bounds_witness :
  exists b c d,
    dados_media ibeu
      (coerce parse_digits ibeu set_ibeu
         (coerce parse_digits tx_mortalidade_100mil_hab set_tx tabela_sem_faixa))
      selecao_sem_uf
      = Ok [ibeu sem_faixa; b; c; d] /\
    forall x, In x [b; c; d] ->
      x = CNull \/ exists q, x = CNum q /\ (0 <= q <= 1)%Q.
Proof.
  apply (ibeu_means_within_bounds parse_digits tabela_sem_faixa selecao_sem_uf
           sem_faixa []).
  - reflexivity.
  - intros r q Hr Hq. simpl in Hr.
    destruct Hr as [<- | [<- | []]]; simpl in Hq; [| discriminate].
    injection Hq as <-. split; discriminate.
Defined.

End Medias.

(* ------------------------------------------------------------------ *)
(** ** A code made of blanks *)

Module Bordas.
Import Py Pandas Streamlit Dash Amostras Linha266 Fatos Selecao.

(** X15: a typed code made of blanks only is not taken as no code: the
    search runs with the empty key.  For a typed code and stored codes
    written in ASCII, where trimming removes the ASCII white space only:
    when no row has a blank code the select boxes take over; when some row
    has one, the first such row is the record of the run. *)
Theorem blank_code_is_searched (df : frame) (cod up mp : string) :
  so_ascii cod = true ->
  (forall r, In r df -> so_ascii (cod_mun r) = true) ->
  cod <> "" -> strip cod = "" ->
  ((forall r, In r df -> strip (cod_mun r) <> "") ->
   sidebar df cod up mp = filtros_tradicionais df up mp) /\
  (forall r0,
     find (fun r => String.eqb (strip (cod_mun r)) "") df = Some r0 ->
     iloc0 (df_fil_mun (sidebar df cod up mp)) = Ok r0 /\
     municipio (sidebar df cod up mp) = Some (nome_mun r0)).
Proof.
  intros _ _ Hc Hs. split.
  - intros Hall. apply sidebar_name_path. right.
    unfold por_codigo. rewrite Hs.
    induction df as [| r df IH]; [reflexivity |]. simpl.
    destruct (String.eqb (strip (cod_mun r)) "") eqn:E.
    + apply String.eqb_eq in E. exfalso. apply (Hall r); [now left | exact E].
    + apply IH. intros r' Hr'. apply Hall. now right.
  - intros r0 Hf. rewrite filter_head_find in Hf.
    destruct (filter (fun r => String.eqb (strip (cod_mun r)) "") df)
      as [| r1 rest] eqn:E; [discriminate |].
    injection Hf as ->.
    assert (P : por_codigo df cod = r0 :: rest).
    { unfold por_codigo. now rewrite Hs. }
    rewrite (sidebar_code_path df cod up mp r0 rest Hc P). auto.
Qed.

Lemma blank_code_is_searched_witness :
  ((forall r, In r cenario -> strip (cod_mun r) <> "") ->
   sidebar cenario "  " "RJ" "C" = filtros_tradicionais cenario "RJ" "C") /\
  (forall r0,
     find (fun r => String.eqb (strip (cod_mun r)) "") cenario = Some r0 ->
     iloc0 (df_fil_mun (sidebar cenario "  " "RJ" "C")) = Ok r0 /\
     municipio (sidebar cenario "  " "RJ" "C") = Some (nome_mun r0)).
Proof.
  apply (blank_code_is_searched cenario "  " "RJ" "C").
  - reflexivity.
  - intros r Hr. simpl in Hr.
    destruct Hr as [<- | [<- | [<- | []]]]; reflexivity.
  - discriminate.
  - reflexivity.
Defined.

End Bordas.
